(** * To-Do reminder bot: the reminder core, embedded and verified

    The development follows the Python sources:
    - [utils/timeparser.py]   (class [TimeParser]),
    - [utils/helpers.py]      (class [ValidationHelper]),
    - [scheduler/scheduler.py] (class [ReminderScheduler]),
    - [db/models.py]          (classes [Reminder], [TaskManager]),
    - [scheduler/reminder_jobs.py] (class [ReminderJobHandler]).

    Python strings are modelled by [string] (the ASCII fragment), naive
    [datetime] values by the number of microseconds since 0001-01-01 00:00,
    the wall clock by a sequence of readings threaded through a small
    state-and-exception monad, and the external collaborators (the regular
    expression engine, [strptime], the APScheduler job store, the MongoDB
    collections, the Discord client) by executable models of the part of
    their behaviour that the sources rely on. *)

From Stdlib Require Import ZArith List String Ascii Bool Lia.
Import ListNotations.
Local Open Scope string_scope.
Local Open Scope Z_scope.

(* ===================================================================== *)
(** * Python strings *)
(* ===================================================================== *)

Module PyStr.

Definition code (c : ascii) : Z := Z.of_nat (nat_of_ascii c).

Definition chr (n : Z) : ascii := ascii_of_nat (Z.to_nat n).

(** [str.isspace] on the ASCII range: TAB..CR, FS..US and the space. *)
Definition is_space (c : ascii) : bool :=
  let n := code c in
  ((9 <=? n) && (n <=? 13)) || ((28 <=? n) && (n <=? 32)).

(** The class [\d] on the ASCII range. *)
Definition is_digit (c : ascii) : bool :=
  let n := code c in (48 <=? n) && (n <=? 57).

Definition lower_char (c : ascii) : ascii :=
  let n := code c in
  if (65 <=? n) && (n <=? 90) then chr (n + 32) else c.

Fixpoint lower (s : string) : string :=
  match s with
  | EmptyString => EmptyString
  | String c r => String (lower_char c) (lower r)
  end.

Fixpoint rev_onto (s acc : string) : string :=
  match s with
  | EmptyString => acc
  | String c r => rev_onto r (String c acc)
  end.

Definition rev (s : string) : string := rev_onto s EmptyString.

Fixpoint lstrip (s : string) : string :=
  match s with
  | EmptyString => EmptyString
  | String c r => if is_space c then lstrip r else s
  end.

Definition rstrip (s : string) : string := rev (lstrip (rev s)).

(** [s.strip()] *)
Definition strip (s : string) : string := rstrip (lstrip s).

(** [s.replace(c, '')] for a one-character [c]. *)
Fixpoint remove_char (c : ascii) (s : string) : string :=
  match s with
  | EmptyString => EmptyString
  | String d r =>
      if Ascii.eqb c d then remove_char c r else String d (remove_char c r)
  end.

(** [s.split()]: the maximal runs of non-space characters. *)
Fixpoint split_aux (s : string) (cur : string) : list string :=
  match s with
  | EmptyString =>
      match cur with EmptyString => [] | _ => [rev cur] end
  | String c r =>
      if is_space c
      then match cur with
           | EmptyString => split_aux r EmptyString
           | _ => rev cur :: split_aux r EmptyString
           end
      else split_aux r (String c cur)
  end.

Definition split (s : string) : list string := split_aux s EmptyString.

(** [sep.join(l)] *)
Fixpoint join (sep : string) (l : list string) : string :=
  match l with
  | [] => EmptyString
  | [x] => x
  | x :: r => x ++ sep ++ join sep r
  end.

(** [int(s)] on a string of ASCII digits, surrounding white space ignored. *)
Fixpoint int_acc (s : string) (acc : Z) : Z :=
  match s with
  | EmptyString => acc
  | String c r => int_acc r (10 * acc + (code c - 48))
  end.

Definition int (s : string) : Z := int_acc (strip s) 0.

Definition digit_char (d : Z) : ascii := chr (48 + d).

(** [f"{n:02d}"] and [f"{n:04d}"] for a non-negative [n]. *)
Definition pad2 (n : Z) : string :=
  String (digit_char (n / 10 mod 10)) (String (digit_char (n mod 10)) EmptyString).

Definition pad4 (n : Z) : string :=
  String (digit_char (n / 1000 mod 10))
    (String (digit_char (n / 100 mod 10)) (pad2 n)).

(** [str(n)] for a non-negative [n]; [fuel] bounds the number of digits. *)
Fixpoint str_of_Z_aux (fuel : nat) (n : Z) (acc : string) : string :=
  match fuel with
  | O => acc
  | S f =>
      let acc' := String (digit_char (n mod 10)) acc in
      if n / 10 =? 0 then acc' else str_of_Z_aux f (n / 10) acc'
  end.

Definition str_of_Z (n : Z) : string :=
  str_of_Z_aux (S (Z.to_nat (Z.log2 n))) n EmptyString.

End PyStr.

(* ===================================================================== *)
(** * Regular expressions, as Python's backtracking matcher runs them *)
(* ===================================================================== *)

(** A pattern maps the subject to the list of its matches at the start of
    the subject, in the order in which the backtracking engine would try
    them: each match is the list of captured groups and the unconsumed
    rest.  [re.match] keeps the first one. *)
Module Re.

Definition groups := list (option string).
Definition rx := string -> list (groups * string).

Definition eps : rx := fun s => [([], s)].

(** One character satisfying [p]. *)
Definition cls (p : ascii -> bool) : rx := fun s =>
  match s with
  | String c r => if p c then [([], r)] else []
  | EmptyString => []
  end.

Definition chr (c : ascii) : rx := cls (Ascii.eqb c).

(** Under [re.IGNORECASE]. *)
Definition chr_i (c : ascii) : rx :=
  cls (fun d => Ascii.eqb (PyStr.lower_char c) (PyStr.lower_char d)).

Definition seq (a b : rx) : rx := fun s =>
  flat_map (fun '(g1, r1) => map (fun '(g2, r2) => ((g1 ++ g2)%list, r2)) (b r1)) (a s).

(** [a|b]: the matches of [a] are tried before those of [b]. *)
Definition alt (a b : rx) : rx := fun s => (a s ++ b s)%list.

Fixpoint alts (l : list rx) : rx :=
  match l with
  | [] => fun _ => []
  | a :: r => alt a (alts r)
  end.

(** A literal string. *)
Fixpoint lit (w : string) : rx :=
  match w with
  | EmptyString => eps
  | String c r => seq (chr c) (lit r)
  end.

Fixpoint lit_i (w : string) : rx :=
  match w with
  | EmptyString => eps
  | String c r => seq (chr_i c) (lit_i r)
  end.

(** [a?], greedy. *)
Definition opt (a : rx) : rx := alt a eps.

(** [a{n}] *)
Fixpoint rep (n : nat) (a : rx) : rx :=
  match n with
  | O => eps
  | S k => seq a (rep k a)
  end.

(** [[p]+] for a character class, greedy: the longest run first, then the
    shorter ones down to one character. *)
Fixpoint plus (p : ascii -> bool) (s : string) : list (groups * string) :=
  match s with
  | String c r => if p c then (plus p r ++ [([], r)])%list else []
  | EmptyString => []
  end.

Definition take_consumed (s rest : string) : string :=
  substring 0 (String.length s - String.length rest) s.

(** [(a)]: a capturing group with no group inside. *)
Definition group (a : rx) : rx := fun s =>
  map (fun '(_, r) => ([Some (take_consumed s r)], r)) (a s).

(** [(a)?]: the group is [None] when it did not take part in the match. *)
Definition opt_group (a : rx) : rx := alt (group a) (fun s => [([None], s)]).

(** [$] without [re.MULTILINE]: at the end of the subject, or just before a
    newline that ends the subject. *)
Definition eol : rx := fun s =>
  match s with
  | EmptyString => [([], s)]
  | String c EmptyString => if Ascii.eqb c (PyStr.chr 10) then [([], s)] else []
  | _ => []
  end.

(** [re.match(pattern, s)]: the groups of the first match, if any. *)
Definition rmatch (a : rx) (s : string) : option groups :=
  match a s with
  | [] => None
  | (g, _) :: _ => Some g
  end.

(** [m.group(i)], counted from 1: [None] for a group that took no part in
    the match. *)
Definition group_at (g : groups) (i : nat) : option string :=
  nth (pred i) g None.

(** [m.group(i)] for a group that the pattern always sets. *)
Definition group_str (g : groups) (i : nat) : string :=
  match group_at g i with Some s => s | None => EmptyString end.

End Re.

(* ===================================================================== *)
(** * Exceptions *)
(* ===================================================================== *)

Inductive exn : Type :=
| ValueError
| OverflowError
| KeyError
| ConflictingIdError
| JobLookupError.

Inductive res (A : Type) : Type :=
| Val (a : A)
| Raise (e : exn).

Arguments Val {A} a.
Arguments Raise {A} e.

(* ===================================================================== *)
(** * Naive datetimes *)
(* ===================================================================== *)

(** A naive [datetime] is a point of the proleptic Gregorian calendar with
    microsecond resolution between 0001-01-01 00:00:00 and
    9999-12-31 23:59:59.999999; here it is the number of microseconds since
    the first of these.  A [timedelta] is a number of microseconds. *)
Module datetime.

Definition t := Z.

Definition US_SECOND : Z := 1000000.
Definition US_MINUTE : Z := 60 * US_SECOND.
Definition US_HOUR : Z := 3600 * US_SECOND.
Definition US_DAY : Z := 86400 * US_SECOND.

(** [date.max.toordinal()] *)
Definition MAXORDINAL : Z := 3652059.

Definition in_range (x : Z) : bool := (0 <=? x) && (x <? MAXORDINAL * US_DAY).

Definition is_leap (y : Z) : bool :=
  (y mod 4 =? 0) && (negb (y mod 100 =? 0) || (y mod 400 =? 0)).

Definition days_in_month (y m : Z) : Z :=
  if m =? 2 then (if is_leap y then 29 else 28)
  else if (m =? 4) || (m =? 6) || (m =? 9) || (m =? 11) then 30
  else 31.

Definition DAYS_BEFORE_MONTH (m : Z) : Z :=
  nth (Z.to_nat m) [0; 0; 31; 59; 90; 120; 151; 181; 212; 243; 273; 304; 334] 0.

Definition days_before_month (y m : Z) : Z :=
  DAYS_BEFORE_MONTH m + (if (2 <? m) && is_leap y then 1 else 0).

Definition days_before_year (y : Z) : Z :=
  let y1 := y - 1 in y1 * 365 + y1 / 4 - y1 / 100 + y1 / 400.

Definition ymd2ord (y m d : Z) : Z :=
  days_before_year y + days_before_month y m + d.

Definition ord2ymd (ord : Z) : Z * Z * Z :=
  let n := ord - 1 in
  let n400 := n / 146097 in
  let n := n mod 146097 in
  let n100 := n / 36524 in
  let n := n mod 36524 in
  let n4 := n / 1461 in
  let n := n mod 1461 in
  let n1 := n / 365 in
  let n := n mod 365 in
  let year := n400 * 400 + 1 + n100 * 100 + n4 * 4 + n1 in
  if (n1 =? 4) || (n100 =? 4) then (year - 1, 12, 31)
  else
    let leapyear := (n1 =? 3) && (negb (n4 =? 24) || (n100 =? 3)) in
    let month := Z.shiftr (n + 50) 5 in
    let preceding :=
      DAYS_BEFORE_MONTH month + (if (2 <? month) && leapyear then 1 else 0) in
    if n <? preceding
    then
      let month' := month - 1 in
      let dim :=
        if month' =? 2 then (if leapyear then 29 else 28)
        else if (month' =? 4) || (month' =? 6) || (month' =? 9) || (month' =? 11)
             then 30 else 31 in
      (year, month', n - (preceding - dim) + 1)
    else (year, month, n - preceding + 1).

(** [datetime(y, m, d, H, M, S, us)]; [None] is the [ValueError] of a field
    out of range. *)
Definition make (y m d H M S us : Z) : option t :=
  if (1 <=? y) && (y <=? 9999) && (1 <=? m) && (m <=? 12)
     && (1 <=? d) && (d <=? days_in_month y m)
     && (0 <=? H) && (H <=? 23) && (0 <=? M) && (M <=? 59)
     && (0 <=? S) && (S <=? 59) && (0 <=? us) && (us <=? 999999)
  then Some ((ymd2ord y m d - 1) * US_DAY + H * US_HOUR + M * US_MINUTE
             + S * US_SECOND + us)
  else None.

Definition toordinal (x : t) : Z := x / US_DAY + 1.

Definition year (x : t) : Z := fst (fst (ord2ymd (toordinal x))).
Definition month (x : t) : Z := snd (fst (ord2ymd (toordinal x))).
Definition day (x : t) : Z := snd (ord2ymd (toordinal x)).
Definition hour (x : t) : Z := x mod US_DAY / US_HOUR.
Definition minute (x : t) : Z := x mod US_HOUR / US_MINUTE.
Definition second (x : t) : Z := x mod US_MINUTE / US_SECOND.
Definition microsecond (x : t) : Z := x mod US_SECOND.

(** [x.weekday()]: Monday is 0. *)
Definition weekday (x : t) : Z := (toordinal x + 6) mod 7.

(** [timedelta(...)] normalised to microseconds; more than 999999999 days
    either way is an [OverflowError]. *)
Definition timedelta (us : Z) : res Z :=
  if (-999999999 <=? us / US_DAY) && (us / US_DAY <=? 999999999)
  then Val us else Raise OverflowError.

(** [x + delta] *)
Definition add (x : t) (delta : Z) : res t :=
  if in_range (x + delta) then Val (x + delta) else Raise OverflowError.

(** [x.replace(hour=H, minute=M, second=0, microsecond=0)] *)
Definition replace_hm (x : t) (H M : Z) : res t :=
  if (0 <=? H) && (H <=? 23) && (0 <=? M) && (M <=? 59)
  then Val (x / US_DAY * US_DAY + H * US_HOUR + M * US_MINUTE)
  else Raise ValueError.

Definition a_month : list string :=
  ["jan"; "feb"; "mar"; "apr"; "may"; "jun";
   "jul"; "aug"; "sep"; "oct"; "nov"; "dec"].

Definition f_month : list string :=
  ["january"; "february"; "march"; "april"; "may"; "june";
   "july"; "august"; "september"; "october"; "november"; "december"].

(** One [strftime] directive in the C locale (the ones the sources use). *)
Definition strftime_dir (d : ascii) (x : t) : string :=
  if Ascii.eqb d "Y" then PyStr.pad4 (year x)
  else if Ascii.eqb d "m" then PyStr.pad2 (month x)
  else if Ascii.eqb d "d" then PyStr.pad2 (day x)
  else if Ascii.eqb d "H" then PyStr.pad2 (hour x)
  else if Ascii.eqb d "I" then
    PyStr.pad2 (if hour x mod 12 =? 0 then 12 else hour x mod 12)
  else if Ascii.eqb d "M" then PyStr.pad2 (minute x)
  else if Ascii.eqb d "p" then (if hour x <? 12 then "AM" else "PM")
  else String "%" (String d EmptyString).

(** [x.strftime(fmt)] *)
Fixpoint strftime (fmt : string) (x : t) : string :=
  match fmt with
  | EmptyString => EmptyString
  | String c r =>
      match r with
      | String d r' =>
          if Ascii.eqb c "%"
          then strftime_dir d x ++ strftime r' x
          else String c (strftime r x)
      | EmptyString => String c EmptyString
      end
  end.

End datetime.

(* ===================================================================== *)
(** * The wall clock *)
(* ===================================================================== *)

(** [datetime.now()] is the only effect of the time parser.  The clock is
    the sequence of the values that successive readings return; a
    computation is run from the index of the next reading and returns its
    result (or the exception it raises) with the index it leaves. *)
Module Clock.

Definition clock := nat -> datetime.t.

Definition M (A : Type) : Type := clock -> nat -> res A * nat.

Definition ret {A} (a : A) : M A := fun _ n => (Val a, n).

Definition raise {A} (e : exn) : M A := fun _ n => (Raise e, n).

Definition bind {A B} (c : M A) (k : A -> M B) : M B := fun clk n =>
  match c clk n with
  | (Val a, n') => k a clk n'
  | (Raise e, n') => (Raise e, n')
  end.

Definition lift {A} (r : res A) : M A := fun _ n => (r, n).

(** [datetime.now()] *)
Definition now : M datetime.t := fun clk n => (Val (clk n), S n).

(** The clock that shows [t] at every reading. *)
Definition frozen (t : datetime.t) : clock := fun _ => t.

End Clock.

Notation "x <- c ;; k" := (Clock.bind c (fun x => k))
  (at level 61, c at next level, right associativity).

(* ===================================================================== *)
(** * [datetime.strptime] *)
(* ===================================================================== *)

(** The library turns the format into a regular expression (a run of white
    space becomes [\s+], a directive becomes a named group, any other
    character stands for itself), matches it against the text ignoring
    case, fails unless the first match consumes the whole text, and
    converts the groups.  [None] is the library's [ValueError]. *)
Module Strptime.

Inductive tok : Type :=
| Dir (d : ascii)
| Ws
| Chr (c : ascii).

Fixpoint tokens (fmt : string) (in_ws : bool) : list tok :=
  match fmt with
  | EmptyString => []
  | String c r =>
      if PyStr.is_space c
      then (if in_ws then tokens r true else Ws :: tokens r true)
      else
        match r with
        | String d r' =>
            if Ascii.eqb c "%" then Dir d :: tokens r' false
            else Chr c :: tokens r false
        | EmptyString => [Chr c]
        end
  end.

Definition between (lo hi c : ascii) : bool :=
  (PyStr.code lo <=? PyStr.code c) && (PyStr.code c <=? PyStr.code hi).

Definition digit : Re.rx := Re.cls PyStr.is_digit.

(** The month names, the longest first, as the library sorts them. *)
Definition f_month_by_length : list string :=
  ["september"; "february"; "november"; "december"; "january"; "october";
   "august"; "march"; "april"; "june"; "july"; "may"].

Definition dir_rx (d : ascii) : option Re.rx :=
  if Ascii.eqb d "Y" then Some (Re.rep 4 digit)
  else if Ascii.eqb d "m" || Ascii.eqb d "I" then
    Some (Re.alts [Re.seq (Re.chr "1") (Re.cls (between "0" "2"));
                   Re.seq (Re.chr "0") (Re.cls (between "1" "9"));
                   Re.cls (between "1" "9")])
  else if Ascii.eqb d "d" then
    Some (Re.alts [Re.seq (Re.chr "3") (Re.cls (between "0" "1"));
                   Re.seq (Re.cls (between "1" "2")) digit;
                   Re.seq (Re.chr "0") (Re.cls (between "1" "9"));
                   Re.cls (between "1" "9");
                   Re.seq (Re.chr " ") (Re.cls (between "1" "9"))])
  else if Ascii.eqb d "H" then
    Some (Re.alts [Re.seq (Re.chr "2") (Re.cls (between "0" "3"));
                   Re.seq (Re.cls (between "0" "1")) digit;
                   digit])
  else if Ascii.eqb d "M" then
    Some (Re.alts [Re.seq (Re.cls (between "0" "5")) digit; digit])
  else if Ascii.eqb d "p" then Some (Re.alts [Re.lit_i "am"; Re.lit_i "pm"])
  else if Ascii.eqb d "b" then Some (Re.alts (map Re.lit_i datetime.a_month))
  else if Ascii.eqb d "B" then Some (Re.alts (map Re.lit_i f_month_by_length))
  else None.

Fixpoint time_re (l : list tok) : option Re.rx :=
  match l with
  | [] => Some Re.eps
  | Dir d :: r =>
      match dir_rx d, time_re r with
      | Some a, Some b => Some (Re.seq (Re.group a) b)
      | _, _ => None
      end
  | Ws :: r => option_map (Re.seq (Re.plus PyStr.is_space)) (time_re r)
  | Chr c :: r => option_map (Re.seq (Re.chr_i c)) (time_re r)
  end.

Fixpoint dirs (l : list tok) : list ascii :=
  match l with
  | [] => []
  | Dir d :: r => d :: dirs r
  | _ :: r => dirs r
  end.

(** [found_dict] *)
Definition found := list (ascii * string).

Fixpoint zip_found (ds : list ascii) (g : Re.groups) : found :=
  match ds, g with
  | d :: ds', Some v :: g' => (d, v) :: zip_found ds' g'
  | d :: ds', None :: g' => zip_found ds' g'
  | _, _ => []
  end.

Fixpoint get (k : ascii) (f : found) : option string :=
  match f with
  | [] => None
  | (d, v) :: r => if Ascii.eqb k d then Some v else get k r
  end.

Fixpoint index_of (w : string) (l : list string) (i : Z) : Z :=
  match l with
  | [] => i
  | x :: r => if String.eqb w x then i else index_of w r (i + 1)
  end.

Record fields : Type := mk_fields {
  f_year : option Z;
  f_month : Z;
  f_day : Z;
  f_hour : Z;
  f_minute : Z
}.

Definition defaults : fields := mk_fields None 1 1 0 0.

Definition convert1 (f : found) (acc : fields) (kv : ascii * string) : fields :=
  let '(k, v) := kv in
  let '(mk_fields y mo d h mi) := acc in
  if Ascii.eqb k "Y" then mk_fields (Some (PyStr.int v)) mo d h mi
  else if Ascii.eqb k "m" then mk_fields y (PyStr.int v) d h mi
  else if Ascii.eqb k "B" then
    mk_fields y (index_of (PyStr.lower v) datetime.f_month 1) d h mi
  else if Ascii.eqb k "b" then
    mk_fields y (index_of (PyStr.lower v) datetime.a_month 1) d h mi
  else if Ascii.eqb k "d" then mk_fields y mo (PyStr.int v) h mi
  else if Ascii.eqb k "H" then mk_fields y mo d (PyStr.int v) mi
  else if Ascii.eqb k "I" then
    let hour := PyStr.int v in
    let ampm :=
      PyStr.lower (match get "p" f with Some a => a | None => EmptyString end) in
    let hour' :=
      if String.eqb ampm EmptyString || String.eqb ampm "am"
      then (if hour =? 12 then 0 else hour)
      else if String.eqb ampm "pm"
           then (if negb (hour =? 12) then hour + 12 else hour)
           else hour in
    mk_fields y mo d hour' mi
  else if Ascii.eqb k "M" then mk_fields y mo d h (PyStr.int v)
  else acc.

Definition convert (f : found) : option datetime.t :=
  let '(mk_fields y mo d h mi) := fold_left (convert1 f) f defaults in
  let year :=
    match y with
    | Some y' => y'
    | None => if (mo =? 2) && (d =? 29) then 1904 else 1900
    end in
  datetime.make year mo d h mi 0 0.

(** [datetime.strptime(data, fmt)] *)
Definition strptime (data fmt : string) : option datetime.t :=
  let toks := tokens fmt false in
  match time_re toks with
  | None => None
  | Some re =>
      match re data with
      | [] => None
      | (g, rest) :: _ =>
          match rest with
          | EmptyString => convert (zip_found (dirs toks) g)
          | _ => None
          end
      end
  end.

End Strptime.

(* ===================================================================== *)
(** * [utils/timeparser.py]: class [TimeParser] *)
(* ===================================================================== *)

Module TimeParser.

Import Clock.

Definition weekday_map (weekday : string) : res Z :=
  if String.eqb weekday "monday" then Val 0
  else if String.eqb weekday "tuesday" then Val 1
  else if String.eqb weekday "wednesday" then Val 2
  else if String.eqb weekday "thursday" then Val 3
  else if String.eqb weekday "friday" then Val 4
  else if String.eqb weekday "saturday" then Val 5
  else if String.eqb weekday "sunday" then Val 6
  else Raise KeyError.

(** [_get_next_weekday]: the clock is read twice, once for the current
    weekday and once for the date that the days are added to. *)
Definition _get_next_weekday (weekday : string) : M datetime.t :=
  target_day <- lift (weekday_map weekday) ;;
  today <- now ;;
  let current_day := datetime.weekday today in
  let days_ahead := target_day - current_day in
  let days_ahead := if days_ahead <=? 0 then days_ahead + 7 else days_ahead in
  base <- now ;;
  delta <- lift (datetime.timedelta (days_ahead * datetime.US_DAY)) ;;
  lift (datetime.add base delta).

(** [_get_specific_time] *)
Definition _get_specific_time (day : string) (hour minute : Z)
    (ampm : option string) : M datetime.t :=
  current <- now ;;
  let hour :=
    match ampm with
    | Some a =>
        if String.eqb a EmptyString then hour
        else if String.eqb (PyStr.lower a) "pm" && negb (hour =? 12) then hour + 12
        else if String.eqb (PyStr.lower a) "am" && (hour =? 12) then 0
        else hour
    | None => hour
    end in
  target_time <- lift (datetime.replace_hm current hour minute) ;;
  if String.eqb day "tomorrow"
  then delta <- lift (datetime.timedelta datetime.US_DAY) ;;
       lift (datetime.add target_time delta)
  else ret target_time.

(** [now + timedelta(unit=n)] *)
Definition after (current : datetime.t) (us : Z) : M datetime.t :=
  delta <- lift (datetime.timedelta us) ;;
  lift (datetime.add current delta).

Definition handler := Re.groups -> M datetime.t.

Definition weekday_names : list string :=
  ["monday"; "tuesday"; "wednesday"; "thursday"; "friday"; "saturday"; "sunday"].

(** The [patterns] list of [parse_relative_time], in its order; [current] is
    the local [now] that the lambdas close over. *)
Definition patterns (current : datetime.t) : list (Re.rx * handler) :=
  [ (* in (\d+) minutes? *)
    (Re.seq (Re.lit "in ")
       (Re.seq (Re.group (Re.plus PyStr.is_digit))
          (Re.seq (Re.lit " minute") (Re.opt (Re.chr "s")))),
     fun m => after current (PyStr.int (Re.group_str m 1) * datetime.US_MINUTE));
    (* in (\d+) hours? *)
    (Re.seq (Re.lit "in ")
       (Re.seq (Re.group (Re.plus PyStr.is_digit))
          (Re.seq (Re.lit " hour") (Re.opt (Re.chr "s")))),
     fun m => after current (PyStr.int (Re.group_str m 1) * datetime.US_HOUR));
    (* in (\d+) days? *)
    (Re.seq (Re.lit "in ")
       (Re.seq (Re.group (Re.plus PyStr.is_digit))
          (Re.seq (Re.lit " day") (Re.opt (Re.chr "s")))),
     fun m => after current (PyStr.int (Re.group_str m 1) * datetime.US_DAY));
    (* tomorrow *)
    (Re.lit "tomorrow",
     fun m => after current (1 * datetime.US_DAY));
    (* next week *)
    (Re.lit "next week",
     fun m => after current (7 * datetime.US_DAY));
    (* next (monday|tuesday|wednesday|thursday|friday|saturday|sunday) *)
    (Re.seq (Re.lit "next ") (Re.group (Re.alts (map Re.lit weekday_names))),
     fun m => _get_next_weekday (Re.group_str m 1));
    (* (today|tomorrow) at (\d{1,2}):(\d{2})(am|pm)? *)
    (Re.seq (Re.group (Re.alt (Re.lit "today") (Re.lit "tomorrow")))
       (Re.seq (Re.lit " at ")
          (Re.seq (Re.group (Re.alt (Re.rep 2 (Re.cls PyStr.is_digit))
                                    (Re.rep 1 (Re.cls PyStr.is_digit))))
             (Re.seq (Re.chr ":")
                (Re.seq (Re.group (Re.rep 2 (Re.cls PyStr.is_digit)))
                   (Re.opt_group (Re.alt (Re.lit "am") (Re.lit "pm"))))))),
     fun m => _get_specific_time (Re.group_str m 1)
                (PyStr.int (Re.group_str m 2)) (PyStr.int (Re.group_str m 3))
                (Re.group_at m 4)) ].

(** The loop [for pattern, handler in patterns]. *)
Fixpoint first_match (ps : list (Re.rx * handler)) (time_str : string)
  : M (option datetime.t) :=
  match ps with
  | [] => ret None
  | (pattern, h) :: rest =>
      match Re.rmatch pattern time_str with
      | Some m => r <- h m ;; ret (Some r)
      | None => first_match rest time_str
      end
  end.

(** [parse_relative_time] *)
Definition parse_relative_time (time_str : string) : M (option datetime.t) :=
  let time_str := PyStr.strip (PyStr.lower time_str) in
  current <- now ;;
  first_match (patterns current) time_str.

Definition formats : list string :=
  [ "%Y-%m-%d %H:%M";
    "%Y-%m-%d %I:%M %p";
    "%Y-%m-%d %I:%M%p";
    "%d/%m/%Y %H:%M";
    "%d/%m/%Y %I:%M %p";
    "%m/%d/%Y %H:%M";
    "%m/%d/%Y %I:%M %p";
    "%b %d %I:%M %p";
    "%B %d %I:%M %p";
    "%Y-%m-%d %I:%M %p";
    "%Y-%m-%d %I:%M%p" ].

(** The loop [for fmt in formats: try: return strptime(...) except
    ValueError: continue]. *)
Fixpoint try_formats (fmts : list string) (text : string) : option datetime.t :=
  match fmts with
  | [] => None
  | fmt :: rest =>
      match Strptime.strptime text fmt with
      | Some d => Some d
      | None => try_formats rest text
      end
  end.

Fixpoint try_combinations (combos : list string) : option datetime.t :=
  match combos with
  | [] => None
  | combo :: rest =>
      match try_formats formats combo with
      | Some d => Some d
      | None => try_combinations rest
      end
  end.

Definition apostrophe : ascii := PyStr.chr 39.
Definition double_quote : ascii := PyStr.chr 34.

(** [parse_absolute_time] *)
Definition parse_absolute_time (time_str : string) : option datetime.t :=
  let time_str := PyStr.strip time_str in
  let time_str :=
    PyStr.remove_char double_quote (PyStr.remove_char apostrophe time_str) in
  match try_formats formats time_str with
  | Some d => Some d
  | None =>
      let parts := PyStr.split time_str in
      if (2 <=? List.length parts)%nat
      then
        let date_part := hd EmptyString parts in
        let time_part := PyStr.join " " (tl parts) in
        try_combinations
          [ date_part ++ " " ++ time_part;
            date_part ++ " " ++ PyStr.remove_char " " time_part ]
      else None
  end.

(** [parse_time]: the relative forms first, then the absolute ones. *)
Definition parse_time (time_str : string) : M (option datetime.t) :=
  result <- parse_relative_time time_str ;;
  match result with
  | Some r => ret (Some r)
  | None => ret (parse_absolute_time time_str)
  end.

(** [format_time] *)
Definition format_time (dt : datetime.t) : string :=
  datetime.strftime "%Y-%m-%d %I:%M %p" dt.

Definition plural (n : Z) : string := if negb (n =? 1) then "s" else EmptyString.

(** The body of [format_relative_time] once [now] has been read.
    [diff.total_seconds() < 0] holds exactly when the difference in
    microseconds is negative; [diff.days] and [diff.seconds] are the
    normalised fields of the difference. *)
Definition format_relative_from (current dt : datetime.t) : string :=
  let diff := dt - current in
  if diff <? 0 then "past due"
  else
    let days := diff / datetime.US_DAY in
    let seconds := diff mod datetime.US_DAY / datetime.US_SECOND in
    let hours := seconds / 3600 in
    let minutes := seconds mod 3600 / 60 in
    if 0 <? days then "in " ++ PyStr.str_of_Z days ++ " day" ++ plural days
    else if 0 <? hours then "in " ++ PyStr.str_of_Z hours ++ " hour" ++ plural hours
    else if 0 <? minutes
         then "in " ++ PyStr.str_of_Z minutes ++ " minute" ++ plural minutes
         else "now".

(** [format_relative_time] *)
Definition format_relative_time (dt : datetime.t) : M string :=
  current <- now ;;
  ret (format_relative_from current dt).

End TimeParser.

(* ===================================================================== *)
(** * [utils/helpers.py]: class [ValidationHelper] *)
(* ===================================================================== *)

Module ValidationHelper.

(** The class [[a-f0-9]]. *)
Definition hex_lower (c : ascii) : bool :=
  Strptime.between "a" "f" c || Strptime.between "0" "9" c.

(** The pattern [^[a-f0-9]{24}$]; [re.match] already anchors at the start. *)
Definition task_id_re : Re.rx := Re.seq (Re.rep 24 (Re.cls hex_lower)) Re.eol.

(** [validate_task_id]; the argument is [None] for Python's [None] (any
    value that is not a string is rejected by the same test). *)
Definition validate_task_id (task_id : option string) : bool :=
  match task_id with
  | None => false
  | Some EmptyString => false
  | Some s => match Re.rmatch task_id_re s with Some _ => true | None => false end
  end.

(** [validate_priority] *)
Definition validate_priority (priority : string) : bool :=
  existsb (String.eqb (PyStr.lower priority)) ["low"; "medium"; "high"].

(** The slice [s[:k]]: a negative [k] counts from the end. *)
Definition slice_to (s : string) (k : Z) : string :=
  let n := Z.of_nat (String.length s) in
  let stop := if k <? 0 then Z.max 0 (n + k) else Z.min k n in
  substring 0 (Z.to_nat stop) s.

(** [sanitize_input] *)
Definition sanitize_input (text : string) (max_length : Z) : string :=
  match text with
  | EmptyString => EmptyString
  | _ =>
      let text := PyStr.join " " (PyStr.split text) in
      if max_length <? Z.of_nat (String.length text)
      then slice_to text (max_length - 3) ++ "..."
      else text
  end.

End ValidationHelper.

(* ===================================================================== *)
(** * [utils/helpers.py]: class [PaginationHelper] *)
(* ===================================================================== *)

Module PaginationHelper.

(** [range(start, stop, step)] for a positive [step]; [fuel] bounds the
    number of its elements. *)
Fixpoint range_up (fuel : nat) (start stop step : Z) : list Z :=
  match fuel with
  | O => []
  | S f =>
      if start <? stop then start :: range_up f (start + step) stop step else []
  end.

(** [range(0, n, step)] for [n >= 0]: a [ValueError] for a zero step, and
    nothing for a negative one. *)
Definition range0 (n step : Z) : res (list Z) :=
  if step =? 0 then Raise ValueError
  else if step <? 0 then Val []
  else Val (range_up (Z.to_nat n) 0 n step).

(** The slice [items[i:j]] for [0 <= i <= j]. *)
Definition slice {A : Type} (items : list A) (i j : Z) : list A :=
  firstn (Z.to_nat (j - i)) (skipn (Z.to_nat i) items).

(** [chunk_list] *)
Definition chunk_list {A : Type} (items : list A) (chunk_size : Z)
  : res (list (list A)) :=
  match range0 (Z.of_nat (List.length items)) chunk_size with
  | Val starts => Val (map (fun i => slice items i (i + chunk_size)) starts)
  | Raise e => Raise e
  end.

(** [f"{title} (Page {i}/{n})"] *)
Definition page_title (title : string) (i n : Z) : string :=
  title ++ " (Page " ++ PyStr.str_of_Z i ++ "/" ++ PyStr.str_of_Z n ++ ")".

(** The loop [for i, chunk in enumerate(chunks, 1)]. *)
Fixpoint paginate {A E : Type} (embed_creator_func : list A -> string -> E)
    (title : string) (n : Z) (i : Z) (chunks : list (list A)) : list E :=
  match chunks with
  | [] => []
  | chunk :: rest =>
      embed_creator_func chunk (page_title title i n)
      :: paginate embed_creator_func title n (i + 1) rest
  end.

(** [create_paginated_embeds], with the default chunk size of 10. *)
Definition create_paginated_embeds {A E : Type} (items : list A)
    (title : string) (embed_creator_func : list A -> string -> E)
  : res (list E) :=
  match chunk_list items 10 with
  | Val chunks =>
      Val (paginate embed_creator_func title (Z.of_nat (List.length chunks)) 1
             chunks)
  | Raise e => Raise e
  end.

End PaginationHelper.

(* ===================================================================== *)
(** * [scheduler/scheduler.py]: class [ReminderScheduler] *)
(* ===================================================================== *)

Module ReminderScheduler.

(** A job of the scheduler: its id, the run date of its [DateTrigger] and
    the [args] of [_trigger_reminder]. *)
Record job : Type := mk_job {
  job_id : string;
  run_date : datetime.t;
  arg_reminder_id : string;
  arg_user_id : Z;
  arg_task_id : string;
  arg_message : string
}.

(** The job store of the running scheduler (started by [bot.py] before any
    command is served): the jobs in the order in which they were added. *)
Definition jobs := list job.

(** [scheduler.get_job(id)] *)
Fixpoint get_job (id : string) (js : jobs) : option job :=
  match js with
  | [] => None
  | j :: r => if String.eqb id (job_id j) then Some j else get_job id r
  end.

(** The store's [update_job]: the entry with the id of [j] becomes [j]. *)
Fixpoint update_job (j : job) (js : jobs) : jobs :=
  match js with
  | [] => []
  | k :: r => if String.eqb (job_id j) (job_id k) then j :: r else k :: update_job j r
  end.

Fixpoint delete_job (id : string) (js : jobs) : jobs :=
  match js with
  | [] => []
  | k :: r => if String.eqb id (job_id k) then r else k :: delete_job id r
  end.

(** [scheduler.add_job(..., id=..., replace_existing=...)] *)
Definition add_job (j : job) (replace_existing : bool) (js : jobs) : res jobs :=
  match get_job (job_id j) js with
  | Some _ =>
      if replace_existing then Val (update_job j js) else Raise ConflictingIdError
  | None => Val (js ++ [j])%list
  end.

(** [scheduler.remove_job(id)] *)
Definition remove_job (id : string) (js : jobs) : res jobs :=
  match get_job id js with
  | Some _ => Val (delete_job id js)
  | None => Raise JobLookupError
  end.

(** [f"reminder_{reminder_id}"] *)
Definition job_id_of (reminder_id : string) : string := "reminder_" ++ reminder_id.

(** [add_reminder]: the new job table and the returned flag. *)
Definition add_reminder (reminder_id : string) (reminder_time : datetime.t)
    (user_id : Z) (task_id : string) (message : string) (js : jobs)
  : jobs * bool :=
  let id := job_id_of reminder_id in
  match add_job (mk_job id reminder_time reminder_id user_id task_id message)
          true js with
  | Val js' => (js', true)
  | Raise _ => (js, false)
  end.

(** [remove_reminder] *)
Definition remove_reminder (reminder_id : string) (js : jobs) : jobs * bool :=
  match remove_job (job_id_of reminder_id) js with
  | Val js' => (js', true)
  | Raise _ => (js, false)
  end.

(** [update_reminder]: the job is removed first and looked up afterwards. *)
Definition update_reminder (reminder_id : string) (new_time : datetime.t)
    (js : jobs) : jobs * bool :=
  let id := job_id_of reminder_id in
  match remove_job id js with
  | Raise _ => (js, false)
  | Val js1 =>
      match get_job id js1 with
      | Some existing_job =>
          match add_job (mk_job id new_time (arg_reminder_id existing_job)
                           (arg_user_id existing_job) (arg_task_id existing_job)
                           (arg_message existing_job)) false js1 with
          | Val js2 => (js2, true)
          | Raise _ => (js1, false)
          end
      | None => (js1, false)
      end
  end.


(** The live jobs of a reminder id. *)
Definition jobs_of (reminder_id : string) (js : jobs) : jobs :=
  filter (fun j => String.eqb (job_id_of reminder_id) (job_id j)) js.

(** At most one live job per id. *)
Definition unique_ids (js : jobs) : Prop := NoDup (map job_id js).

End ReminderScheduler.

(* ===================================================================== *)
(** * [db/models.py]: classes [Task], [Reminder] and [TaskManager] *)
(* ===================================================================== *)

Module TaskManager.

Fixpoint all_chars (p : ascii -> bool) (s : string) : bool :=
  match s with
  | EmptyString => true
  | String c r => p c && all_chars p r
  end.

Definition is_hex (c : ascii) : bool :=
  Strptime.between "0" "9" c || Strptime.between "a" "f" c
  || Strptime.between "A" "F" c.

(** [bson.ObjectId(s)]: a string of 24 hexadecimal digits names an object
    id, whose [str()] is the same digits in lower case; any other string is
    refused with an exception ([None]). *)
Definition ObjectId (s : string) : option string :=
  if Nat.eqb (String.length s) 24 && all_chars is_hex s
  then Some (PyStr.lower s) else None.

Record Task : Type := mk_Task {
  task_oid : string;
  task_user_id : Z;
  title : string;
  description : string;
  due_date : option datetime.t;
  priority : string;
  completed : bool;
  task_created_at : datetime.t
}.

Record Reminder : Type := mk_Reminder {
  _id : string;
  user_id : Z;
  task_id : string;
  reminder_time : datetime.t;
  message : string;
  sent : bool;
  created_at : datetime.t
}.

(** The two collections, each in its natural order. *)
Record db : Type := mk_db {
  tasks_collection : list Task;
  reminders_collection : list Reminder
}.

(** [get_task_by_id]: [None] also when [ObjectId] refuses the id. *)
Definition get_task_by_id (d : db) (id : string) : option Task :=
  match ObjectId id with
  | Some o => find (fun t => String.eqb o (task_oid t)) (tasks_collection d)
  | None => None
  end.

(** The filter [{"reminder_time": {"$lte": current_time}, "sent": False}]. *)
Definition pending (current_time : datetime.t) (r : Reminder) : bool :=
  (reminder_time r <=? current_time) && negb (sent r).

(** [get_pending_reminders] *)
Definition get_pending_reminders (d : db) (current_time : datetime.t)
  : list Reminder :=
  filter (pending current_time) (reminders_collection d).

Definition set_sent (r : Reminder) : Reminder :=
  mk_Reminder (_id r) (user_id r) (task_id r) (reminder_time r) (message r)
    true (created_at r).

(** [update_one({"_id": o}, {"$set": {"sent": True}})]: the first document
    with this id is updated; the count is that of the documents changed. *)
Fixpoint update_one_sent (o : string) (rs : list Reminder)
  : list Reminder * Z :=
  match rs with
  | [] => ([], 0)
  | r :: rest =>
      if String.eqb o (_id r)
      then (set_sent r :: rest, if sent r then 0 else 1)
      else let '(rest', n) := update_one_sent o rest in (r :: rest', n)
  end.

(** [mark_reminder_sent]: the new store and the returned flag. *)
Definition mark_reminder_sent (d : db) (reminder_id : string) : db * bool :=
  match ObjectId reminder_id with
  | Some o =>
      let '(rs, modified_count) := update_one_sent o (reminders_collection d) in
      (mk_db (tasks_collection d) rs, 0 <? modified_count)
  | None => (d, false)
  end.

(** What the store keeps of a datetime: BSON dates count milliseconds, the
    microseconds below are dropped. *)
Definition bson_datetime (x : datetime.t) : datetime.t := x / 1000 * 1000.

(** Object ids are unique within the task collection. *)
Definition unique_task_ids (d : db) : Prop :=
  NoDup (map task_oid (tasks_collection d)).

(** [insert_one] gives the document the object id [inserted_id] that the
    driver generates; [None] stands for the driver's refusal of an id that
    the collection already holds. *)
Definition stored_task (inserted_id : string) (t : Task) : Task :=
  mk_Task inserted_id (task_user_id t) (title t) (description t)
    (option_map bson_datetime (due_date t)) (priority t) (completed t)
    (bson_datetime (task_created_at t)).

(** [create_task]: the new store and the returned id. *)
Definition create_task (d : db) (task : Task) (inserted_id : string)
  : option (db * string) :=
  if existsb (fun t => String.eqb inserted_id (task_oid t)) (tasks_collection d)
  then None
  else Some (mk_db (tasks_collection d ++ [stored_task inserted_id task])%list
               (reminders_collection d),
             inserted_id).

Definition stored_reminder (inserted_id : string) (r : Reminder) : Reminder :=
  mk_Reminder inserted_id (user_id r) (task_id r)
    (bson_datetime (reminder_time r)) (message r) (sent r)
    (bson_datetime (created_at r)).

(** [create_reminder]: the new store and the returned id. *)
Definition create_reminder (d : db) (reminder : Reminder) (inserted_id : string)
  : option (db * string) :=
  if existsb (fun r => String.eqb inserted_id (_id r)) (reminders_collection d)
  then None
  else Some (mk_db (tasks_collection d)
               (reminders_collection d ++ [stored_reminder inserted_id reminder])%list,
             inserted_id).

(** One entry of the [updates] dictionary of [update_task], for the fields
    that the commands set. *)
Inductive field_update : Type :=
| SetTitle (v : string)
| SetDescription (v : string)
| SetDueDate (v : datetime.t)
| SetPriority (v : string)
| SetCompleted (v : bool).

Definition apply_update (t : Task) (u : field_update) : Task :=
  match u with
  | SetTitle v =>
      mk_Task (task_oid t) (task_user_id t) v (description t) (due_date t)
        (priority t) (completed t) (task_created_at t)
  | SetDescription v =>
      mk_Task (task_oid t) (task_user_id t) (title t) v (due_date t)
        (priority t) (completed t) (task_created_at t)
  | SetDueDate v =>
      mk_Task (task_oid t) (task_user_id t) (title t) (description t)
        (Some (bson_datetime v)) (priority t) (completed t) (task_created_at t)
  | SetPriority v =>
      mk_Task (task_oid t) (task_user_id t) (title t) (description t)
        (due_date t) v (completed t) (task_created_at t)
  | SetCompleted v =>
      mk_Task (task_oid t) (task_user_id t) (title t) (description t)
        (due_date t) (priority t) v (task_created_at t)
  end.

(** [{"$set": updates}] on one document. *)
Definition apply_updates (t : Task) (updates : list field_update) : Task :=
  fold_left apply_update updates t.

Definition option_eqb {A : Type} (eqb : A -> A -> bool) (a b : option A) : bool :=
  match a, b with
  | Some x, Some y => eqb x y
  | None, None => true
  | _, _ => false
  end.

(** Whether two documents are the same. *)
Definition task_eqb (a b : Task) : bool :=
  String.eqb (task_oid a) (task_oid b)
  && (task_user_id a =? task_user_id b)
  && String.eqb (title a) (title b)
  && String.eqb (description a) (description b)
  && option_eqb Z.eqb (due_date a) (due_date b)
  && String.eqb (priority a) (priority b)
  && Bool.eqb (completed a) (completed b)
  && (task_created_at a =? task_created_at b).

(** [update_one({"_id": o}, {"$set": updates})] on the task collection: the
    first document with this id is updated; the count is 1 when that
    changed the document. *)
Fixpoint update_one_task (o : string) (updates : list field_update)
    (ts : list Task) : list Task * Z :=
  match ts with
  | [] => ([], 0)
  | t :: rest =>
      if String.eqb o (task_oid t)
      then (apply_updates t updates :: rest,
            if task_eqb (apply_updates t updates) t then 0 else 1)
      else let '(rest', n) := update_one_task o updates rest in (t :: rest', n)
  end.

(** [update_task]: the new store and the returned flag; an id that
    [ObjectId] refuses, like any failure of the store, gives [False]. *)
Definition update_task (d : db) (id : string) (updates : list field_update)
  : db * bool :=
  match ObjectId id with
  | Some o =>
      let '(ts, modified_count) := update_one_task o updates (tasks_collection d) in
      (mk_db ts (reminders_collection d), 0 <? modified_count)
  | None => (d, false)
  end.

(** [delete_one({"_id": o})] *)
Fixpoint delete_one_task (o : string) (ts : list Task) : list Task * Z :=
  match ts with
  | [] => ([], 0)
  | t :: rest =>
      if String.eqb o (task_oid t) then (rest, 1)
      else let '(rest', n) := delete_one_task o rest in (t :: rest', n)
  end.

(** [delete_task]: the task goes, then every reminder whose [task_id] field
    is the given string; an id that [ObjectId] refuses raises before either
    and gives [False]. *)
Definition delete_task (d : db) (id : string) : db * bool :=
  match ObjectId id with
  | Some o =>
      let '(ts, deleted_count) := delete_one_task o (tasks_collection d) in
      (mk_db ts
         (filter (fun r => negb (String.eqb id (task_id r)))
            (reminders_collection d)),
       0 <? deleted_count)
  | None => (d, false)
  end.

(** The stored [sent] flag of the reminder with object id [o]. *)
Definition sent_flag (d : db) (o : string) : option bool :=
  option_map sent (find (fun r => String.eqb o (_id r)) (reminders_collection d)).

(** Object ids are unique within a collection. *)
Definition unique_reminder_ids (d : db) : Prop :=
  NoDup (map _id (reminders_collection d)).

End TaskManager.

(* ===================================================================== *)
(** * [utils/helpers.py]: [EmbedHelper.create_reminder_embed] *)
(* ===================================================================== *)

Module EmbedHelper.

Record Embed : Type := mk_Embed {
  embed_title : string;
  embed_description : string;
  embed_color : Z;
  embed_fields : list (string * string)
}.

Definition is_alpha (c : ascii) : bool :=
  Strptime.between "a" "z" c || Strptime.between "A" "Z" c.

Definition upper_char (c : ascii) : ascii :=
  if Strptime.between "a" "z" c then PyStr.chr (PyStr.code c - 32) else c.

(** [s.title()] *)
Fixpoint title_case (s : string) (in_word : bool) : string :=
  match s with
  | EmptyString => EmptyString
  | String c r =>
      String (if in_word then PyStr.lower_char c else upper_char c)
        (title_case r (is_alpha c))
  end.

Definition newline : string := String (PyStr.chr 10) EmptyString.

(** [_get_priority_color]: green, orange, red, and grey for anything
    else. *)
Definition _get_priority_color (priority : string) : Z :=
  let p := PyStr.lower priority in
  if String.eqb p "low" then 65280
  else if String.eqb p "medium" then 16753920
  else if String.eqb p "high" then 16711680
  else 8421504.

(** [create_reminder_embed]; the bell emoji that opens the title lies
    outside the ASCII fragment and is left out. *)
Definition create_reminder_embed (task : TaskManager.Task) (message : string)
  : Embed :=
  let f1 :=
    match TaskManager.description task with
    | EmptyString => []
    | d => [("Description", d)]
    end in
  let f2 :=
    match TaskManager.due_date task with
    | Some d => [("Due Date", datetime.strftime "%Y-%m-%d %I:%M %p" d)]
    | None => []
    end in
  mk_Embed "Task Reminder"
    ("**" ++ TaskManager.title task ++ "**" ++ newline ++ message)
    16739179
    (f1 ++ f2 ++ [("Priority", title_case (TaskManager.priority task) false)])%list.

End EmbedHelper.

(* ===================================================================== *)
(** * The Discord client, as the delivery code sees it *)
(* ===================================================================== *)

Module Discord.

(** The outcome of [bot.fetch_user(user_id)]: the user, or one of the
    exceptions that the delivery code tells apart ([NotFound], any other
    [HTTPException], anything else). *)
Inductive fetch_result : Type :=
| FetchOk (user : Z)
| FetchNotFound
| FetchHTTPException
| FetchOtherError.

(** The outcome of [user.send(embed=...)]. *)
Inductive send_result : Type :=
| SendOk
| SendForbidden
| SendOtherError.

(** The client answers the [n]-th call made to it; nothing is assumed on
    how its answers vary from one call to the next. *)
Record Bot : Type := mk_Bot {
  fetch_user : nat -> Z -> fetch_result;
  send : nat -> Z -> EmbedHelper.Embed -> send_result
}.

End Discord.

(* ===================================================================== *)
(** * [scheduler/reminder_jobs.py]: class [ReminderJobHandler] *)
(* ===================================================================== *)

Module ReminderJobHandler.

Import TaskManager.

(** What a delivery does that can be observed from outside. *)
Inductive event : Type :=
| EvDeliver (reminder_id : string)
| EvFetchUser (user_id : Z) (r : Discord.fetch_result)
| EvSend (user : Z) (embed : EmbedHelper.Embed) (r : Discord.send_result)
| EvMarkSent (reminder_id : string).

(** The store and the number of calls made to the Discord client so far. *)
Record state : Type := mk_state {
  store : db;
  calls : nat
}.

(** [_send_reminder]: every [return] of an abort branch, and the outer
    [except Exception], leave the store as it is. *)
Definition _send_reminder (bot : Discord.Bot) (reminder : Reminder) (s : state)
  : state * list event :=
  match get_task_by_id (store s) (task_id reminder) with
  | None => (s, [EvDeliver (_id reminder)])
  | Some task =>
      let fr := Discord.fetch_user bot (calls s) (user_id reminder) in
      let s1 := mk_state (store s) (S (calls s)) in
      match fr with
      | Discord.FetchOk user =>
          let embed := EmbedHelper.create_reminder_embed task (message reminder) in
          let sr := Discord.send bot (calls s1) user embed in
          let s2 := mk_state (store s1) (S (calls s1)) in
          match sr with
          | Discord.SendOk =>
              let '(d, _) := mark_reminder_sent (store s2) (_id reminder) in
              (mk_state d (calls s2),
               [EvDeliver (_id reminder); EvFetchUser (user_id reminder) fr;
                EvSend user embed sr; EvMarkSent (_id reminder)])
          | _ =>
              (s2, [EvDeliver (_id reminder); EvFetchUser (user_id reminder) fr;
                    EvSend user embed sr])
          end
      | _ => (s1, [EvDeliver (_id reminder); EvFetchUser (user_id reminder) fr])
      end
  end.

(** [handle_reminder_callback] *)
Definition handle_reminder_callback (bot : Discord.Bot) (reminder_id : string)
    (user_id : Z) (task_id : string) (message : string) (s : state)
  : state * list event :=
  match get_task_by_id (store s) task_id with
  | None => (s, [EvDeliver reminder_id])
  | Some task =>
      let fr := Discord.fetch_user bot (calls s) user_id in
      let s1 := mk_state (store s) (S (calls s)) in
      match fr with
      | Discord.FetchOk user =>
          let embed := EmbedHelper.create_reminder_embed task message in
          let sr := Discord.send bot (calls s1) user embed in
          let s2 := mk_state (store s1) (S (calls s1)) in
          match sr with
          | Discord.SendOk =>
              let '(d, _) := mark_reminder_sent (store s2) reminder_id in
              (mk_state d (calls s2),
               [EvDeliver reminder_id; EvFetchUser user_id fr;
                EvSend user embed sr; EvMarkSent reminder_id])
          | _ =>
              (s2, [EvDeliver reminder_id; EvFetchUser user_id fr;
                    EvSend user embed sr])
          end
      | _ => (s1, [EvDeliver reminder_id; EvFetchUser user_id fr])
      end
  end.

(** The loop [for reminder in pending_reminders: await _send_reminder]. *)
Fixpoint send_all (bot : Discord.Bot) (rs : list Reminder) (s : state)
  : state * list event :=
  match rs with
  | [] => (s, [])
  | r :: rest =>
      let '(s1, e1) := _send_reminder bot r s in
      let '(s2, e2) := send_all bot rest s1 in
      (s2, (e1 ++ e2)%list)
  end.

(** [_process_pending_reminders], run when [datetime.utcnow()] shows
    [current_time]: the list is fetched once, before the loop. *)
Definition _process_pending_reminders (bot : Discord.Bot)
    (current_time : datetime.t) (s : state) : state * list event :=
  let pending_reminders := get_pending_reminders (store s) current_time in
  send_all bot pending_reminders s.

(** The scheduler singleton together with the handler's store. *)
Record world : Type := mk_world {
  scheduler : ReminderScheduler.jobs;
  reminder_callback : bool;
  handler : state
}.

(** [delete_reminder]: the job is removed, then the record is marked as
    sent ("for now, we'll just mark it as sent"). *)
Definition delete_reminder (reminder_id : string) (w : world) : world * bool :=
  let '(js, _) := ReminderScheduler.remove_reminder reminder_id (scheduler w) in
  let '(d, _) := mark_reminder_sent (store (handler w)) reminder_id in
  (mk_world js (reminder_callback w) (mk_state d (calls (handler w))), true).

(** [create_reminder]: the record is inserted, then the job is added under
    the id that the store returned.  [utcnow] is the reading of the UTC
    clock that the [Reminder] constructor takes for [created_at];
    [inserted_id] is the object id that the driver generates.  The new
    [Reminder] has no [_id] yet (the empty string here), is not sent, and
    any exception gives [None]. *)
Definition create_reminder (user_id : Z) (task_id : string)
    (reminder_time : datetime.t) (message : string)
    (utcnow : datetime.t) (inserted_id : string) (w : world)
  : world * option string :=
  let reminder :=
    mk_Reminder EmptyString user_id task_id reminder_time message false utcnow in
  match TaskManager.create_reminder (store (handler w)) reminder inserted_id with
  | None => (w, None)
  | Some (d, reminder_id) =>
      let '(js, _) :=
        ReminderScheduler.add_reminder reminder_id reminder_time user_id task_id
          message (scheduler w) in
      (mk_world js (reminder_callback w) (mk_state d (calls (handler w))),
       Some reminder_id)
  end.

(** What happens on its own once the bot runs, with the time at which it
    happens: a cycle of the sweep, or the scheduler running a job that is
    due, which leaves the table as its date trigger has no further run date
    and whose function [_trigger_reminder] calls the registered callback. *)
Inductive tick : Type :=
| Sweep (current_time : datetime.t)
| Fire (current_time : datetime.t) (id : string).

Definition tick_time (t : tick) : datetime.t :=
  match t with
  | Sweep current_time => current_time
  | Fire current_time _ => current_time
  end.

Definition step (bot : Discord.Bot) (w : world) (t : tick)
  : world * list event :=
  match t with
  | Sweep current_time =>
      let '(s, e) := _process_pending_reminders bot current_time (handler w) in
      (mk_world (scheduler w) (reminder_callback w) s, e)
  | Fire current_time id =>
      match ReminderScheduler.get_job id (scheduler w) with
      | None => (w, [])
      | Some j =>
          if ReminderScheduler.run_date j <=? current_time
          then
            let js := ReminderScheduler.delete_job id (scheduler w) in
            if reminder_callback w
            then
              let '(s, e) :=
                handle_reminder_callback bot
                  (ReminderScheduler.arg_reminder_id j)
                  (ReminderScheduler.arg_user_id j)
                  (ReminderScheduler.arg_task_id j)
                  (ReminderScheduler.arg_message j) (handler w) in
              (mk_world js true s, e)
            else (mk_world js false (handler w), [])
          else (w, [])
      end
  end.

Fixpoint run (bot : Discord.Bot) (w : world) (ts : list tick)
  : world * list event :=
  match ts with
  | [] => (w, [])
  | t :: rest =>
      let '(w1, e1) := step bot w t in
      let '(w2, e2) := run bot w1 rest in
      (w2, (e1 ++ e2)%list)
  end.

(** The reminder ids for which a delivery was started. *)
Fixpoint deliveries (es : list event) : list string :=
  match es with
  | [] => []
  | EvDeliver rid :: r => rid :: deliveries r
  | _ :: r => deliveries r
  end.

Definition is_send_ok (e : event) : bool :=
  match e with EvSend _ _ Discord.SendOk => true | _ => false end.

Definition is_mark_sent (e : event) : bool :=
  match e with EvMarkSent _ => true | _ => false end.

(** Every job carries the reminder id that its own id is built from, as
    the jobs made by [add_reminder] do. *)
Definition jobs_named (js : ReminderScheduler.jobs) : Prop :=
  forall j, In j js ->
    ReminderScheduler.job_id j
    = ReminderScheduler.job_id_of (ReminderScheduler.arg_reminder_id j).

End ReminderJobHandler.

(* ===================================================================== *)
(** * [cogs/tasks.py]: class [TaskCommands] *)
(* ===================================================================== *)

(** The commands that change the store, as functions of the author of the
    message, the arguments and the store; the reply stands for the message
    or embed handed to [ctx.send], which is taken to succeed. *)
Module TaskCommands.

Import TaskManager.

Inductive reply : Type :=
| TitleEmpty                        (* "Task title cannot be empty!" *)
| CreateFailed                      (* "Failed to create task ..." *)
| TaskCreated (task : Task) (id : string)
                                    (* create_task_embed(task, "Task Created!") + Task ID *)
| InvalidTaskId                     (* "Invalid task ID format!" *)
| TaskNotFound                      (* "Task not found!" *)
| NotYourTask                       (* "You can only ... your own tasks!" *)
| AlreadyCompleted                  (* "Task is already completed!" *)
| InvalidPriority                   (* "Invalid priority! Use: low, medium, or high" *)
| TaskEmbed (task : Task)           (* create_task_embed(task, ...) *)
| TaskDeleted (title : string)      (* "Task **title** has been deleted." *)
| UpdatedNoDetails                  (* "... updated, but could not retrieve updated details." *)
| UpdateFailed.                     (* "Failed to ... Please try again." *)

(** [add_task]; [utcnow] is the clock reading that the [Task] constructor
    takes for [created_at], [inserted_id] the object id that the driver
    generates. *)
Definition add_task (author : Z) (title description : string)
    (utcnow : datetime.t) (inserted_id : string) (d : db) : db * reply :=
  let title := ValidationHelper.sanitize_input title 100 in
  let description := ValidationHelper.sanitize_input description 500 in
  match title with
  | EmptyString => (d, TitleEmpty)
  | _ =>
      let task :=
        mk_Task EmptyString author title description None "medium" false utcnow in
      match create_task d task inserted_id with
      | None => (d, CreateFailed)
      | Some (d', EmptyString) => (d', CreateFailed)
      | Some (d', id) => (d', TaskCreated task id)
      end
  end.

(** [complete_task] *)
Definition complete_task (author : Z) (id : string) (d : db) : db * reply :=
  if negb (ValidationHelper.validate_task_id (Some id)) then (d, InvalidTaskId)
  else
    match get_task_by_id d id with
    | None => (d, TaskNotFound)
    | Some task =>
        if negb (task_user_id task =? author) then (d, NotYourTask)
        else if completed task then (d, AlreadyCompleted)
        else
          let '(d', success) := update_task d id [SetCompleted true] in
          if success
          then (d', TaskEmbed (apply_update task (SetCompleted true)))
          else (d', UpdateFailed)
    end.

(** [delete_task] *)
Definition delete_task (author : Z) (id : string) (d : db) : db * reply :=
  if negb (ValidationHelper.validate_task_id (Some id)) then (d, InvalidTaskId)
  else
    match get_task_by_id d id with
    | None => (d, TaskNotFound)
    | Some task =>
        if negb (task_user_id task =? author) then (d, NotYourTask)
        else
          let '(d', success) := TaskManager.delete_task d id in
          if success then (d', TaskDeleted (title task)) else (d', UpdateFailed)
    end.

(** [set_priority] *)
Definition set_priority (author : Z) (id priority : string) (d : db)
  : db * reply :=
  if negb (ValidationHelper.validate_task_id (Some id)) then (d, InvalidTaskId)
  else if negb (ValidationHelper.validate_priority priority)
  then (d, InvalidPriority)
  else
    match get_task_by_id d id with
    | None => (d, TaskNotFound)
    | Some task =>
        if negb (task_user_id task =? author) then (d, NotYourTask)
        else
          let '(d', success) :=
            update_task d id [SetPriority (PyStr.lower priority)] in
          if success
          then match get_task_by_id d' id with
               | Some updated_task => (d', TaskEmbed updated_task)
               | None => (d', UpdatedNoDetails)
               end
          else (d', UpdateFailed)
    end.

End TaskCommands.

(* ===================================================================== *)
(** * The vocabulary of the statements *)
(* ===================================================================== *)

Section StoreVocabulary.

Import TaskManager ReminderJobHandler.

(** The record carries the object id [o]. *)
Definition has_id (o : string) (r : Reminder) : bool := String.eqb o (_id r).

(** What a run of the delivery operation for reminder [rid], owner [uid],
    task [tid] and text [msg] from state [s] must satisfy: the store's
    mark-sent operation is called exactly when the direct message was sent,
    and then for [rid]; in every abort branch (task not found, owner not
    resolved, send refused or failed) the store is the one the run started
    from. *)
Definition marks_only_after_send (bot : Discord.Bot) (rid : string) (uid : Z)
    (tid msg : string) (s : state) (out : state * list event) : Prop :=
  let s' := fst out in
  let evs := snd out in
  existsb is_mark_sent evs = existsb is_send_ok evs
  /\ (existsb is_send_ok evs = true ->
      In (EvMarkSent rid) evs
      /\ store s' = fst (mark_reminder_sent (store s) rid))
  /\ (existsb is_send_ok evs = false -> store s' = store s)
  /\ (get_task_by_id (store s) tid = None ->
      store s' = store s /\ existsb is_mark_sent evs = false)
  /\ ((forall user, Discord.fetch_user bot (calls s) uid <> Discord.FetchOk user) ->
      store s' = store s /\ existsb is_mark_sent evs = false)
  /\ (forall task user,
        get_task_by_id (store s) tid = Some task ->
        Discord.fetch_user bot (calls s) uid = Discord.FetchOk user ->
        Discord.send bot (S (calls s)) user
          (EmbedHelper.create_reminder_embed task msg) <> Discord.SendOk ->
        store s' = store s /\ existsb is_mark_sent evs = false)
  /\ (forall task user,
        get_task_by_id (store s) tid = Some task ->
        Discord.fetch_user bot (calls s) uid = Discord.FetchOk user ->
        Discord.send bot (S (calls s)) user
          (EmbedHelper.create_reminder_embed task msg) = Discord.SendOk ->
        existsb is_mark_sent evs = true).


End StoreVocabulary.

Section ParserVocabulary.

Import Clock TimeParser.

(** The rendering in the words of the spec, with the one change that a
    timestamp equal to the reference time is not past due: "past due" when
    the timestamp is before the reference time, and otherwise the largest
    whole unit of the time remaining, days if there is at least one whole
    day, else hours, else minutes, else "now". *)
Definition largest_whole_unit (current dt : datetime.t) : string :=
  let remaining := dt - current in
  if dt <? current then "past due"
  else if 1 <=? remaining / datetime.US_DAY
  then "in " ++ PyStr.str_of_Z (remaining / datetime.US_DAY)
       ++ " day" ++ plural (remaining / datetime.US_DAY)
  else if 1 <=? remaining / datetime.US_HOUR
  then "in " ++ PyStr.str_of_Z (remaining / datetime.US_HOUR)
       ++ " hour" ++ plural (remaining / datetime.US_HOUR)
  else if 1 <=? remaining / datetime.US_MINUTE
  then "in " ++ PyStr.str_of_Z (remaining / datetime.US_MINUTE)
       ++ " minute" ++ plural (remaining / datetime.US_MINUTE)
  else "now".

(** [c] takes at most [k] readings: two runs, from any two positions of any
    two clocks, that see the same [k] readings return the same result and
    advance by the same number of readings. *)
Definition reads {A : Type} (k : nat) (c : M A) : Prop :=
  forall (clk1 clk2 : clock) (n1 n2 : nat),
    (forall i, (i < k)%nat -> clk1 (n1 + i)%nat = clk2 (n2 + i)%nat) ->
    exists (r : res A) (d : nat),
      (d <= k)%nat /\ c clk1 n1 = (r, (n1 + d)%nat) /\ c clk2 n2 = (r, (n2 + d)%nat).

(** Sunday 2025-07-06, one microsecond before midnight. *)
Definition sunday_night : datetime.t := 63887443199999999.

(** The clock that passes midnight between the second and the third
    reading. *)
Definition passing_midnight : clock :=
  fun i => if (i <? 2)%nat then sunday_night else sunday_night + 1.

End ParserVocabulary.

Section TextVocabulary.

Import TaskManager.

Definition not_space (c : ascii) : bool := negb (PyStr.is_space c).

(** A word: one or more characters, none of them white space. *)
Definition word (w : string) : Prop :=
  w <> EmptyString /\ TaskManager.all_chars not_space w = true.

(** The text is made of words with one space, and no other white space,
    between a word and the next; [in_word] tells whether the character
    before the text belongs to a word. *)
Fixpoint single_spaced (in_word : bool) (s : string) : bool :=
  match s with
  | EmptyString => in_word
  | String c r =>
      if PyStr.is_space c
      then in_word && Ascii.eqb c " " && single_spaced false r
      else single_spaced true r
  end.

(** The text is empty or starts with a character outside the class. *)
Definition starts_outside (p : ascii -> bool) (r : string) : Prop :=
  match r with
  | EmptyString => True
  | String c _ => p c = false
  end.

(** The task carries the object id [o]. *)
Definition has_oid (o : string) (t : Task) : bool := String.eqb o (task_oid t).

(** The units of the "in N ..." patterns, with the word as it follows the
    number and the length of the unit in microseconds. *)
Definition relative_units : list (string * Z) :=
  [(" minute", datetime.US_MINUTE); (" hour", datetime.US_HOUR);
   (" day", datetime.US_DAY)].

(** The hour of the day named by an hour and an optional "am" or "pm", by
    the 12-hour convention: 12am is 0, 12pm is 12, any other pm hour is 12
    more. *)
Definition hour24 (hour : Z) (ampm : option string) : Z :=
  match ampm with
  | Some a =>
      if String.eqb a "pm" then (if hour =? 12 then 12 else hour + 12)
      else if String.eqb a "am" then (if hour =? 12 then 0 else hour)
      else hour
  | None => hour
  end.

End TextVocabulary.

(** What is left of [s] after [n] characters of the class [p]. *)
Fixpoint strip_class (n : nat) (p : ascii -> bool) (s : string) : option string :=
  match n with
  | O => Some s
  | S k =>
      match s with
      | String c r => if p c then strip_class k p r else None
      | EmptyString => None
      end
  end.

(* ===================================================================== *)
(** * A small world to run *)
(* ===================================================================== *)

Definition example_rid : string := "507f1f77bcf86cd799439011".
Definition example_tid : string := "507f191e810c19729de860ea".

(** 2025-07-06 10:00:00 *)
Definition example_due : datetime.t := 63887392800000000.

Definition example_task : TaskManager.Task :=
  TaskManager.mk_Task example_tid 42 "Buy milk" EmptyString None "medium" false 0.

Definition example_reminder : TaskManager.Reminder :=
  TaskManager.mk_Reminder example_rid 42 example_tid example_due
    "Do not forget" false 0.

Definition example_job : ReminderScheduler.job :=
  ReminderScheduler.mk_job (ReminderScheduler.job_id_of example_rid) example_due
    example_rid 42 example_tid "Do not forget".

Definition example_state : ReminderJobHandler.state :=
  ReminderJobHandler.mk_state
    (TaskManager.mk_db [example_task] [example_reminder]) 0.

Definition example_world : ReminderJobHandler.world :=
  ReminderJobHandler.mk_world [example_job] true example_state.

(** A client that resolves every user and delivers every message. *)
Definition example_bot : Discord.Bot :=
  Discord.mk_Bot (fun _ u => Discord.FetchOk u) (fun _ _ _ => Discord.SendOk).

(* ===================================================================== *)
(** * The job table *)
(* ===================================================================== *)

Section JobTable.

Import ReminderScheduler.


Lemma get_job_None (id : string) (js : jobs) :
  get_job id js = None <-> ~ In id (map job_id js).
Proof.
  induction js as [|k r IH]; simpl.
  - split; [intros _ []|reflexivity].
  - destruct (String.eqb id (job_id k)) eqn:E.
    + apply String.eqb_eq in E. split; [discriminate|].
      intros H. exfalso. apply H. left. symmetry. exact E.
    + apply String.eqb_neq in E. rewrite IH. split.
      * intros H [H1|H1]; [apply E; symmetry; exact H1|exact (H H1)].
      * intros H H1. apply H. right. exact H1.
Qed.

Lemma get_job_Some (id : string) (js : jobs) (j : job) :
  get_job id js = Some j -> In j js /\ job_id j = id.
Proof.
  induction js as [|k r IH]; simpl; [discriminate|].
  destruct (String.eqb id (job_id k)) eqn:E.
  - intros H. injection H as <-. apply String.eqb_eq in E.
    split; [left; reflexivity|symmetry; exact E].
  - intros H. destruct (IH H) as [H1 H2]. split; [right; exact H1|exact H2].
Qed.


Lemma filter_absent (id : string) (js : jobs) :
  ~ In id (map job_id js) ->
  filter (fun k => String.eqb id (job_id k)) js = [].
Proof.
  induction js as [|k r IH]; simpl; [reflexivity|].
  intros H. destruct (String.eqb id (job_id k)) eqn:E.
  - apply String.eqb_eq in E. exfalso. apply H. left. symmetry. exact E.
  - apply IH. intros H1. apply H. right. exact H1.
Qed.


Lemma delete_job_ids_incl (id : string) (js : jobs) (x : string) :
  In x (map job_id (delete_job id js)) -> In x (map job_id js).
Proof.
  induction js as [|k r IH]; simpl; [intros []|].
  destruct (String.eqb id (job_id k)); simpl.
  - intros H. right. exact H.
  - intros [H|H]; [left; exact H|right; exact (IH H)].
Qed.

Lemma delete_job_In (id : string) (js : jobs) (j : job) :
  In j (delete_job id js) -> In j js.
Proof.
  induction js as [|k r IH]; simpl; [intros []|].
  destruct (String.eqb id (job_id k)); simpl.
  - intros H. right. exact H.
  - intros [H|H]; [left; exact H|right; exact (IH H)].
Qed.

Lemma delete_job_unique (id : string) (js : jobs) :
  unique_ids js -> unique_ids (delete_job id js).
Proof.
  unfold unique_ids. induction js as [|k r IH]; simpl; [intros H; exact H|].
  intros ND. inversion ND as [|x l Hx ND' Heq]; subst.
  destruct (String.eqb id (job_id k)); simpl; [exact ND'|].
  constructor; [|exact (IH ND')].
  intros H. apply Hx. exact (delete_job_ids_incl _ _ _ H).
Qed.

Lemma delete_job_absent (id : string) (js : jobs) :
  unique_ids js -> ~ In id (map job_id (delete_job id js)).
Proof.
  unfold unique_ids. induction js as [|k r IH]; simpl; [intros _ []|].
  intros ND. inversion ND as [|x l Hx ND' Heq]; subst.
  destruct (String.eqb id (job_id k)) eqn:E; simpl.
  - apply String.eqb_eq in E. rewrite E. exact Hx.
  - apply String.eqb_neq in E. intros [H|H]; [apply E; symmetry; exact H|].
    exact (IH ND' H).
Qed.



End JobTable.

(* ===================================================================== *)
(** * Scheduling twice, and updating *)
(* ===================================================================== *)

Section Scheduling.

Import ReminderScheduler.



(** C10. When the reminder id has a live job, [update_reminder] removes
    that job and returns [False] without registering a replacement: the job
    is looked up only after it has been removed, so the lookup finds
    nothing; afterwards the table holds no job for the id, and nothing that
    was not in it before. *)
Theorem update_reminder_removes_job (js : jobs) (rid : string)
    (new_time : datetime.t) (j : job) :
  unique_ids js ->
  get_job (job_id_of rid) js = Some j ->
  update_reminder rid new_time js = (delete_job (job_id_of rid) js, false)
  /\ get_job (job_id_of rid) (fst (update_reminder rid new_time js)) = None
  /\ jobs_of rid (fst (update_reminder rid new_time js)) = []
  /\ (forall k, In k (fst (update_reminder rid new_time js)) -> In k js).
Proof.
  intros ND G.
  assert (A : ~ In (job_id_of rid) (map job_id (delete_job (job_id_of rid) js))).
  { apply delete_job_absent. exact ND. }
  assert (N : get_job (job_id_of rid) (delete_job (job_id_of rid) js) = None).
  { apply get_job_None. exact A. }
  assert (E : update_reminder rid new_time js
              = (delete_job (job_id_of rid) js, false)).
  { unfold update_reminder, remove_job. rewrite G. rewrite N. reflexivity. }
  rewrite E. simpl. split; [reflexivity|]. split; [exact N|].
  split.
  - unfold jobs_of. apply filter_absent. exact A.
  - intros k. apply delete_job_In.
Qed.

Lemma update_reminder_removes_job_witness :
  unique_ids [mk_job (job_id_of "507f1f77bcf86cd799439011") 100
                "507f1f77bcf86cd799439011" 7 "t" "m"]
  /\ update_reminder "507f1f77bcf86cd799439011" 200
       [mk_job (job_id_of "507f1f77bcf86cd799439011") 100
          "507f1f77bcf86cd799439011" 7 "t" "m"]
     = ([], false).
Proof.
  assert (ND : unique_ids [mk_job (job_id_of "507f1f77bcf86cd799439011") 100
                             "507f1f77bcf86cd799439011" 7 "t" "m"]).
  { unfold unique_ids. simpl. constructor; [intros []|constructor]. }
  split; [exact ND|].
  exact (proj1 (update_reminder_removes_job _ "507f1f77bcf86cd799439011" 200 _
                  ND eq_refl)).
Defined.

End Scheduling.

(* ===================================================================== *)
(** * Delivery *)
(* ===================================================================== *)

Section Delivery.

Import TaskManager ReminderJobHandler.

Lemma _send_reminder_as_callback (bot : Discord.Bot) (r : Reminder) (s : state) :
  _send_reminder bot r s
  = handle_reminder_callback bot (_id r) (user_id r) (task_id r) (message r) s.
Proof. reflexivity. Qed.

Lemma callback_marks_only_after_send (bot : Discord.Bot) (rid : string)
    (uid : Z) (tid msg : string) (s : state) :
  marks_only_after_send bot rid uid tid msg s
    (handle_reminder_callback bot rid uid tid msg s).
Proof.
  unfold marks_only_after_send, handle_reminder_callback.
  destruct (get_task_by_id (store s) tid) as [task|] eqn:T;
    [destruct (Discord.fetch_user bot (calls s) uid) as [user| | |] eqn:F;
     [simpl;
      destruct (Discord.send bot (S (calls s)) user
                  (EmbedHelper.create_reminder_embed task msg)) eqn:Sd;
      [destruct (mark_reminder_sent (store s) rid) as [d b] eqn:Mk| |]| | |]|];
    simpl;
    repeat match goal with |- _ /\ _ => split end;
    intros;
    try reflexivity; try discriminate; try congruence;
    try (simpl; tauto);
    match goal with
    | H : forall u, _ <> Discord.FetchOk u |- _ => exfalso; exact (H _ eq_refl)
    end.
Qed.

(** C2. In every run of the delivery operation, of the sweep
    ([_send_reminder]) as of the timer ([handle_reminder_callback]), the
    store's mark-sent operation is called if and only if the direct message
    was sent; when the task is not found, the owner cannot be resolved
    (not found, HTTP error), or the send is refused (Forbidden) or fails,
    the operation returns with the store, and so the sent flag, as it
    was. *)
Theorem delivery_marks_sent_iff_sent (bot : Discord.Bot) (s : state) :
  (forall rid uid tid msg,
      marks_only_after_send bot rid uid tid msg s
        (handle_reminder_callback bot rid uid tid msg s))
  /\ (forall r : Reminder,
      marks_only_after_send bot (_id r) (user_id r) (task_id r) (message r) s
        (_send_reminder bot r s)).
Proof.
  split.
  - intros. apply callback_marks_only_after_send.
  - intros r. rewrite _send_reminder_as_callback.
    apply callback_marks_only_after_send.
Qed.

End Delivery.

(* ===================================================================== *)
(** * The store under marking *)
(* ===================================================================== *)

Section Store.

Import TaskManager.

Lemma update_one_sent_ids (o : string) (rs : list Reminder) :
  map _id (fst (update_one_sent o rs)) = map _id rs.
Proof.
  induction rs as [|r rest IH]; simpl; [reflexivity|].
  destruct (String.eqb o (_id r)); simpl; [reflexivity|].
  destruct (update_one_sent o rest) as [rest' n]. simpl in *.
  rewrite IH. reflexivity.
Qed.

Lemma find_has_id (o : string) (rs : list Reminder) (r : Reminder) :
  find (has_id o) rs = Some r -> In r rs /\ _id r = o.
Proof.
  intros H. destruct (find_some _ _ H) as [H1 H2].
  split; [exact H1|]. unfold has_id in H2. apply String.eqb_eq in H2.
  symmetry. exact H2.
Qed.

Lemma find_update_one_sent (o o' : string) (rs : list Reminder) :
  find (has_id o) (fst (update_one_sent o' rs))
  = option_map (fun r => if String.eqb o' (_id r) then set_sent r else r)
      (find (has_id o) rs).
Proof.
  induction rs as [|r rest IH]; simpl; [reflexivity|].
  destruct (String.eqb o' (_id r)) eqn:E'; simpl.
  - unfold has_id at 1 3. simpl.
    destruct (String.eqb o (_id r)) eqn:E; simpl.
    + rewrite E'. reflexivity.
    + destruct (find (has_id o) rest) as [r1|] eqn:F; simpl; [|reflexivity].
      destruct (find_has_id _ _ _ F) as [_ Hid].
      apply String.eqb_eq in E'. apply String.eqb_neq in E.
      destruct (String.eqb o' (_id r1)) eqn:E1; [|reflexivity].
      apply String.eqb_eq in E1. exfalso. apply E. congruence.
  - destruct (update_one_sent o' rest) as [rest' n]. simpl in *.
    unfold has_id at 1 3.
    destruct (String.eqb o (_id r)) eqn:E; simpl.
    + rewrite E'. reflexivity.
    + exact IH.
Qed.

Lemma mark_reminder_sent_ids (d : db) (rid : string) :
  map _id (reminders_collection (fst (mark_reminder_sent d rid)))
  = map _id (reminders_collection d).
Proof.
  unfold mark_reminder_sent. destruct (ObjectId rid) as [o|]; [|reflexivity].
  pose proof (update_one_sent_ids o (reminders_collection d)) as H.
  destruct (update_one_sent o (reminders_collection d)) as [rs n].
  simpl in *. exact H.
Qed.

Lemma mark_reminder_sent_find (d : db) (rid o : string) :
  find (has_id o) (reminders_collection (fst (mark_reminder_sent d rid)))
  = match ObjectId rid with
    | Some o' =>
        option_map (fun r => if String.eqb o' (_id r) then set_sent r else r)
          (find (has_id o) (reminders_collection d))
    | None => find (has_id o) (reminders_collection d)
    end.
Proof.
  unfold mark_reminder_sent. destruct (ObjectId rid) as [o'|]; [|reflexivity].
  pose proof (find_update_one_sent o o' (reminders_collection d)) as H.
  destruct (update_one_sent o' (reminders_collection d)) as [rs n].
  simpl in *. exact H.
Qed.

Lemma mark_keeps_unique (d : db) (rid : string) :
  unique_reminder_ids d -> unique_reminder_ids (fst (mark_reminder_sent d rid)).
Proof.
  unfold unique_reminder_ids. rewrite mark_reminder_sent_ids. intros H; exact H.
Qed.

Lemma mark_keeps_sent (d : db) (rid o : string) :
  sent_flag d o = Some true ->
  sent_flag (fst (mark_reminder_sent d rid)) o = Some true.
Proof.
  unfold sent_flag. fold (has_id o). rewrite mark_reminder_sent_find.
  destruct (ObjectId rid) as [o'|]; [|intros H; exact H].
  destruct (find (has_id o) (reminders_collection d)) as [r|]; simpl;
    [|discriminate].
  intros H. injection H as H.
  destruct (String.eqb o' (_id r)); simpl; [reflexivity|]. rewrite H. reflexivity.
Qed.

Lemma mark_keeps_due (d : db) (rid o : string) (due : datetime.t) :
  option_map reminder_time (find (has_id o) (reminders_collection d)) = Some due ->
  option_map reminder_time
    (find (has_id o) (reminders_collection (fst (mark_reminder_sent d rid))))
  = Some due.
Proof.
  rewrite mark_reminder_sent_find.
  destruct (ObjectId rid) as [o'|]; [|intros H; exact H].
  destruct (find (has_id o) (reminders_collection d)) as [r|]; simpl;
    [|discriminate].
  intros H. destruct (String.eqb o' (_id r)); simpl; exact H.
Qed.

Lemma mark_sets_sent (d : db) (rid : string) (r : Reminder) :
  ObjectId rid = Some rid ->
  find (has_id rid) (reminders_collection d) = Some r ->
  sent_flag (fst (mark_reminder_sent d rid)) rid = Some true.
Proof.
  intros HO HF. unfold sent_flag. fold (has_id rid).
  rewrite mark_reminder_sent_find. rewrite HO. rewrite HF. simpl.
  destruct (find_has_id _ _ _ HF) as [_ Hid]. rewrite Hid.
  rewrite String.eqb_refl. reflexivity.
Qed.

Lemma find_unique (rs : list Reminder) (r : Reminder) :
  NoDup (map _id rs) -> In r rs -> find (has_id (_id r)) rs = Some r.
Proof.
  induction rs as [|x rest IH]; simpl; [intros _ []|].
  intros ND HIn. inversion ND as [|y l Hx ND' Heq]; subst.
  unfold has_id at 1.
  destruct HIn as [->|HIn].
  - rewrite String.eqb_refl. reflexivity.
  - destruct (String.eqb (_id r) (_id x)) eqn:E.
    + apply String.eqb_eq in E. exfalso. apply Hx. rewrite <- E.
      apply in_map. exact HIn.
    + apply IH; assumption.
Qed.

Lemma pending_iff (d : db) (now : datetime.t) (r : Reminder) :
  In r (get_pending_reminders d now)
  <-> In r (reminders_collection d) /\ reminder_time r <= now /\ sent r = false.
Proof.
  unfold get_pending_reminders, pending. rewrite filter_In.
  rewrite andb_true_iff, Z.leb_le, negb_true_iff. tauto.
Qed.

Lemma sent_not_pending (d : db) (now : datetime.t) (r : Reminder) :
  unique_reminder_ids d -> sent_flag d (_id r) = Some true ->
  ~ In r (get_pending_reminders d now).
Proof.
  intros U S H. apply pending_iff in H. destruct H as (HIn & _ & Hs).
  unfold sent_flag in S. fold (has_id (_id r)) in S.
  rewrite (find_unique _ _ U HIn) in S. simpl in S. congruence.
Qed.

Lemma early_not_pending (d : db) (now due : datetime.t) (r : Reminder) :
  unique_reminder_ids d ->
  option_map reminder_time (find (has_id (_id r)) (reminders_collection d))
  = Some due ->
  now < due ->
  ~ In r (get_pending_reminders d now).
Proof.
  intros U S Hlt H. apply pending_iff in H. destruct H as (HIn & Hle & _).
  rewrite (find_unique _ _ U HIn) in S. simpl in S. injection S as S. lia.
Qed.

End Store.

(* ===================================================================== *)
(** * The sweep and the timers, run together *)
(* ===================================================================== *)

Section Runs.

Import TaskManager ReminderJobHandler.

Lemma deliveries_app (a b : list event) :
  deliveries (a ++ b)%list = (deliveries a ++ deliveries b)%list.
Proof.
  induction a as [|e a IH]; simpl; [reflexivity|].
  destruct e; simpl; rewrite IH; reflexivity.
Qed.

Lemma callback_deliveries (bot : Discord.Bot) (rid : string) (uid : Z)
    (tid msg : string) (s : state) :
  deliveries (snd (handle_reminder_callback bot rid uid tid msg s)) = [rid].
Proof.
  unfold handle_reminder_callback.
  destruct (get_task_by_id (store s) tid); [|reflexivity].
  destruct (Discord.fetch_user bot (calls s) uid); try reflexivity.
  simpl. destruct (Discord.send bot (S (calls s)) user _); try reflexivity.
  destruct (mark_reminder_sent (store s) rid). reflexivity.
Qed.

Lemma callback_store (bot : Discord.Bot) (rid : string) (uid : Z)
    (tid msg : string) (s : state) :
  store (fst (handle_reminder_callback bot rid uid tid msg s)) = store s
  \/ store (fst (handle_reminder_callback bot rid uid tid msg s))
     = fst (mark_reminder_sent (store s) rid).
Proof.
  unfold handle_reminder_callback.
  destruct (get_task_by_id (store s) tid); [|left; reflexivity].
  destruct (Discord.fetch_user bot (calls s) uid); try (left; reflexivity).
  simpl. destruct (Discord.send bot (S (calls s)) user _);
    try (left; reflexivity).
  destruct (mark_reminder_sent (store s) rid). right. reflexivity.
Qed.

(** Properties of the store that no marking breaks, and properties of the
    job table that no removal breaks, hold along every run; a reminder id
    that neither the due-and-unsent records nor the due jobs carry is never
    delivered. *)
Variable bot : Discord.Bot.
Variable P : db -> Prop.
Variable J : ReminderScheduler.jobs -> Prop.
Variable ok : tick -> Prop.
Variable rid : string.

Hypothesis P_mark : forall d x, P d -> P (fst (mark_reminder_sent d x)).
Hypothesis J_delete : forall js id, J js -> J (ReminderScheduler.delete_job id js).
Hypothesis sweep_misses :
  forall d now r, P d -> ok (Sweep now) ->
    In r (get_pending_reminders d now) -> _id r <> rid.
Hypothesis fire_misses :
  forall js now id j, J js -> ok (Fire now id) ->
    ReminderScheduler.get_job id js = Some j ->
    ReminderScheduler.run_date j <= now ->
    ReminderScheduler.arg_reminder_id j <> rid.

Lemma callback_keeps (x : string) (uid : Z) (tid msg : string) (s : state) :
  P (store s) -> P (store (fst (handle_reminder_callback bot x uid tid msg s))).
Proof.
  intros H. destruct (callback_store bot x uid tid msg s) as [E|E];
    rewrite E; [exact H|apply P_mark; exact H].
Qed.

Lemma send_all_keeps (rs : list Reminder) (s : state) :
  P (store s) ->
  P (store (fst (send_all bot rs s)))
  /\ deliveries (snd (send_all bot rs s)) = map _id rs.
Proof.
  revert s. induction rs as [|r rest IH]; intros s H; simpl.
  - split; [exact H|reflexivity].
  - pose proof (callback_keeps (_id r) (user_id r) (task_id r) (message r) s H)
      as H1.
    pose proof (callback_deliveries bot (_id r) (user_id r) (task_id r)
                  (message r) s) as D1.
    rewrite <- _send_reminder_as_callback in H1, D1.
    destruct (_send_reminder bot r s) as [s1 e1]. simpl in H1, D1.
    destruct (IH s1 H1) as [H2 D2].
    destruct (send_all bot rest s1) as [s2 e2]. simpl in *.
    split; [exact H2|]. rewrite deliveries_app, D1, D2. reflexivity.
Qed.

Lemma step_keeps (w : world) (t : tick) :
  ok t -> P (store (handler w)) -> J (scheduler w) ->
  P (store (handler (fst (step bot w t))))
  /\ J (scheduler (fst (step bot w t)))
  /\ ~ In rid (deliveries (snd (step bot w t))).
Proof.
  intros Hok HP HJ. destruct t as [now|now id]; simpl.
  - unfold _process_pending_reminders.
    destruct (send_all_keeps (get_pending_reminders (store (handler w)) now)
                (handler w) HP) as [H1 D1].
    destruct (send_all bot _ (handler w)) as [s e]. simpl in *.
    split; [exact H1|]. split; [exact HJ|].
    rewrite D1. intros HIn. apply in_map_iff in HIn.
    destruct HIn as (r & Hr & HIn).
    exact (sweep_misses _ _ _ HP Hok HIn Hr).
  - destruct (ReminderScheduler.get_job id (scheduler w)) as [j|] eqn:G;
      [|simpl; auto].
    destruct (ReminderScheduler.run_date j <=? now) eqn:L; [|simpl; auto].
    apply Z.leb_le in L.
    destruct (reminder_callback w).
    + pose proof (callback_keeps (ReminderScheduler.arg_reminder_id j)
                    (ReminderScheduler.arg_user_id j)
                    (ReminderScheduler.arg_task_id j)
                    (ReminderScheduler.arg_message j) (handler w) HP) as H1.
      pose proof (callback_deliveries bot (ReminderScheduler.arg_reminder_id j)
                    (ReminderScheduler.arg_user_id j)
                    (ReminderScheduler.arg_task_id j)
                    (ReminderScheduler.arg_message j) (handler w)) as D1.
      destruct (handle_reminder_callback bot _ _ _ _ (handler w)) as [s e].
      simpl in *. split; [exact H1|]. split; [apply J_delete; exact HJ|].
      rewrite D1. intros [H|[]].
      exact (fire_misses _ _ _ _ HJ Hok G L H).
    + simpl. split; [exact HP|]. split; [apply J_delete; exact HJ|]. auto.
Qed.

Lemma run_keeps (ts : list tick) (w : world) :
  Forall ok ts -> P (store (handler w)) -> J (scheduler w) ->
  P (store (handler (fst (run bot w ts))))
  /\ J (scheduler (fst (run bot w ts)))
  /\ ~ In rid (deliveries (snd (run bot w ts))).
Proof.
  revert w. induction ts as [|t rest IH]; intros w Hok HP HJ; simpl.
  - auto.
  - inversion Hok as [|t' l Ht Hrest Heq]; subst.
    destruct (step_keeps w t Ht HP HJ) as (P1 & J1 & D1).
    destruct (step bot w t) as [w1 e1]. simpl in *.
    destruct (IH w1 Hrest P1 J1) as (P2 & J2 & D2).
    destruct (run bot w1 rest) as [w2 e2]. simpl in *.
    split; [exact P2|]. split; [exact J2|].
    rewrite deliveries_app, in_app_iff. tauto.
Qed.

End Runs.

(* ===================================================================== *)
(** * The sweep *)
(* ===================================================================== *)

Section SweepClaims.

Import TaskManager ReminderJobHandler.



End SweepClaims.

(* ===================================================================== *)
(** * Cancelling a reminder *)
(* ===================================================================== *)

Section Cancel.

Import TaskManager ReminderJobHandler.


Lemma jobs_named_delete (id : string) (js : ReminderScheduler.jobs) :
  jobs_named js -> jobs_named (ReminderScheduler.delete_job id js).
Proof.
  intros H j HIn. apply H. exact (delete_job_In _ _ _ HIn).
Qed.

(** C1 as the spec has it fails: cancelling a reminder that is not yet due
    and not yet sent leaves its stored sent flag true, not false. *)
Lemma delete_reminder_sets_sent_flag :
  sent_flag (store (handler example_world)) example_rid = Some false
  /\ ~ sent_flag (store (handler (fst (delete_reminder example_rid example_world))))
         example_rid = Some false.
Proof.
  split; [reflexivity|]. vm_compute. discriminate.
Qed.

(** C1, amended. Take a reminder whose record is in the store and whose
    job, if it has one, is not due before the reminder is.  However the
    sweep and the timers ran before the due time, and however they run
    after [delete_reminder], no delivery is ever started for the reminder;
    the cancellation removes its job and leaves its stored sent flag true,
    and both stay so. *)
Theorem delete_reminder_prevents_delivery (bot : Discord.Bot) (w : world)
    (rid : string) (r : Reminder) (before after : list tick) :
  ReminderScheduler.unique_ids (scheduler w) ->
  jobs_named (scheduler w) ->
  (forall j, In j (scheduler w) ->
     ReminderScheduler.arg_reminder_id j = rid ->
     reminder_time r <= ReminderScheduler.run_date j) ->
  unique_reminder_ids (store (handler w)) ->
  ObjectId rid = Some rid ->
  find (has_id rid) (reminders_collection (store (handler w))) = Some r ->
  Forall (fun t => tick_time t < reminder_time r) before ->
  let w1 := fst (run bot w before) in
  let w2 := fst (delete_reminder rid w1) in
  let w3 := fst (run bot w2 after) in
  ~ In rid (deliveries (snd (run bot w before)))
  /\ ~ In rid (deliveries (snd (run bot w2 after)))
  /\ sent_flag (store (handler w2)) rid = Some true
  /\ sent_flag (store (handler w3)) rid = Some true
  /\ ReminderScheduler.jobs_of rid (scheduler w2) = []
  /\ ReminderScheduler.jobs_of rid (scheduler w3) = [].
Proof.
  intros UJ NJ TJ US HO HF Hbefore w1 w2 w3.
  (* before the cancellation *)
  destruct (run_keeps bot
    (fun d => unique_reminder_ids d
              /\ option_map reminder_time
                   (find (has_id rid) (reminders_collection d))
                 = Some (reminder_time r))
    (fun js => ReminderScheduler.unique_ids js /\ jobs_named js
               /\ forall j, In j js ->
                    ReminderScheduler.arg_reminder_id j = rid ->
                    reminder_time r <= ReminderScheduler.run_date j)
    (fun t => tick_time t < reminder_time r) rid) with (ts := before) (w := w)
    as ((US1 & HF1) & (UJ1 & NJ1 & _) & D1).
  - intros d x [H1 H2]. split;
      [apply mark_keeps_unique; exact H1|apply mark_keeps_due; exact H2].
  - intros js id (H1 & H2 & H3). split; [apply delete_job_unique; exact H1|].
    split; [apply jobs_named_delete; exact H2|].
    intros j HIn. apply H3. exact (delete_job_In _ _ _ HIn).
  - intros d now r' [H1 H2] Hlt HIn E. subst rid.
    exact (early_not_pending d now _ r' H1 H2 Hlt HIn).
  - intros js now id j (_ & _ & H3) Hlt G Hle E.
    destruct (get_job_Some _ _ _ G) as [HIn _].
    specialize (H3 j HIn E). simpl in Hlt. lia.
  - exact Hbefore.
  - split; [exact US|]. rewrite HF. reflexivity.
  - split; [exact UJ|]. split; [exact NJ|exact TJ].
  - fold w1 in US1, HF1, UJ1, NJ1.
    (* the cancellation *)
    destruct (find (has_id rid) (reminders_collection (store (handler w1))))
      as [r1|] eqn:F1; [|discriminate].
    assert (S2 : sent_flag (store (handler w2)) rid = Some true).
    { unfold w2, delete_reminder.
      destruct (ReminderScheduler.remove_reminder rid (scheduler w1)) as [js b].
      pose proof (mark_sets_sent (store (handler w1)) rid r1 HO F1) as M.
      destruct (mark_reminder_sent (store (handler w1)) rid) as [d b'].
      simpl in *. exact M. }
    assert (U2 : unique_reminder_ids (store (handler w2))).
    { unfold w2, delete_reminder.
      destruct (ReminderScheduler.remove_reminder rid (scheduler w1)) as [js b].
      pose proof (mark_keeps_unique (store (handler w1)) rid US1) as M.
      destruct (mark_reminder_sent (store (handler w1)) rid) as [d b'].
      simpl in *. exact M. }
    assert (J2 : jobs_named (scheduler w2)
                 /\ ~ In (ReminderScheduler.job_id_of rid)
                        (map ReminderScheduler.job_id (scheduler w2))).
    { unfold w2, delete_reminder.
      unfold ReminderScheduler.remove_reminder, ReminderScheduler.remove_job.
      destruct (ReminderScheduler.get_job (ReminderScheduler.job_id_of rid)
                  (scheduler w1)) eqn:G;
        destruct (mark_reminder_sent (store (handler w1)) rid) as [d b'];
        simpl.
      - split; [apply jobs_named_delete; exact NJ1|].
        apply delete_job_absent. exact UJ1.
      - split; [exact NJ1|]. apply get_job_None. exact G. }
    (* after the cancellation *)
    destruct (run_keeps bot
      (fun d => unique_reminder_ids d /\ sent_flag d rid = Some true)
      (fun js => jobs_named js
                 /\ ~ In (ReminderScheduler.job_id_of rid)
                        (map ReminderScheduler.job_id js))
      (fun _ => True) rid) with (ts := after) (w := w2)
      as ((_ & S3) & (_ & A3) & D3).
    + intros d x [H1 H2]. split;
        [apply mark_keeps_unique; exact H1|apply mark_keeps_sent; exact H2].
    + intros js id [H1 H2]. split; [apply jobs_named_delete; exact H1|].
      intros H. apply H2. exact (delete_job_ids_incl _ _ _ H).
    + intros d now r' [H1 H2] _ HIn E. subst rid.
      exact (sent_not_pending d now r' H1 H2 HIn).
    + intros js now id j [H1 H2] _ G _ E.
      destruct (get_job_Some _ _ _ G) as [HIn _].
      apply H2. rewrite <- E. rewrite <- (H1 j HIn).
      apply in_map. exact HIn.
    + apply Forall_forall. intros; exact I.
    + split; assumption.
    + exact J2.
    + fold w3 in S3, A3.
      repeat split; try assumption.
      * unfold ReminderScheduler.jobs_of. apply filter_absent. exact (proj2 J2).
      * unfold ReminderScheduler.jobs_of. apply filter_absent. exact A3.
Qed.

Lemma delete_reminder_prevents_delivery_witness :
  ~ In example_rid
      (deliveries
         (snd (run example_bot
                 (fst (delete_reminder example_rid
                         (fst (run example_bot example_world
                                 [Sweep (example_due - 1)]))))
                 [Sweep (example_due + 1);
                  Fire (example_due + 1)
                    (ReminderScheduler.job_id_of example_rid)]))).
Proof.
  assert (UJ : ReminderScheduler.unique_ids (scheduler example_world)).
  { unfold ReminderScheduler.unique_ids. simpl.
    constructor; [intros []|constructor]. }
  assert (NJ : jobs_named (scheduler example_world)).
  { intros j [<-|[]]. reflexivity. }
  assert (TJ : forall j, In j (scheduler example_world) ->
             ReminderScheduler.arg_reminder_id j = example_rid ->
             reminder_time example_reminder <= ReminderScheduler.run_date j).
  { intros j [<-|[]] _. unfold example_reminder, example_job. simpl. lia. }
  assert (US : unique_reminder_ids (store (handler example_world))).
  { unfold unique_reminder_ids. simpl. constructor; [intros []|constructor]. }
  assert (HB : Forall (fun t => tick_time t < reminder_time example_reminder)
                 [Sweep (example_due - 1)]).
  { constructor; [unfold example_reminder, example_due; simpl; lia|constructor]. }
  exact (proj1 (proj2 (delete_reminder_prevents_delivery example_bot
                         example_world example_rid example_reminder
                         [Sweep (example_due - 1)]
                         [Sweep (example_due + 1);
                          Fire (example_due + 1)
                            (ReminderScheduler.job_id_of example_rid)]
                         UJ NJ TJ US eq_refl eq_refl HB))).
Defined.

End Cancel.

(* ===================================================================== *)
(** * Relative rendering *)
(* ===================================================================== *)

Section RelativeRendering.

Import TimeParser.

Lemma hours_of_short (diff : Z) :
  0 <= diff -> diff / datetime.US_DAY = 0 ->
  diff mod datetime.US_DAY / datetime.US_SECOND / 3600 = diff / datetime.US_HOUR.
Proof.
  unfold datetime.US_DAY, datetime.US_HOUR, datetime.US_SECOND.
  intros H0 Hd. rewrite Z.mod_small.
  - rewrite Z.div_div by lia. reflexivity.
  - apply Z.div_small_iff in Hd; lia.
Qed.

Lemma minutes_of_short (diff : Z) :
  0 <= diff -> diff / datetime.US_DAY = 0 -> diff / datetime.US_HOUR = 0 ->
  (diff mod datetime.US_DAY / datetime.US_SECOND) mod 3600 / 60
  = diff / datetime.US_MINUTE.
Proof.
  unfold datetime.US_DAY, datetime.US_HOUR, datetime.US_MINUTE,
    datetime.US_SECOND.
  intros H0 Hd Hh.
  apply Z.div_small_iff in Hd; [|lia]. apply Z.div_small_iff in Hh; [|lia].
  rewrite (Z.mod_small diff) by lia.
  rewrite (Z.mod_small (diff / 1000000)).
  - rewrite Z.div_div by lia. reflexivity.
  - split.
    + apply Z.div_pos; lia.
    + apply Z.div_lt_upper_bound; lia.
Qed.

Lemma format_relative_from_spec (current dt : datetime.t) :
  format_relative_from current dt = largest_whole_unit current dt.
Proof.
  unfold format_relative_from, largest_whole_unit.
  destruct (Z.ltb_spec (dt - current) 0) as [Hn|Hn];
    destruct (Z.ltb_spec dt current) as [Hc|Hc]; try lia; [reflexivity|].
  assert (Hd : 0 <= (dt - current) / datetime.US_DAY).
  { apply Z.div_pos; [lia|reflexivity]. }
  destruct (Z.ltb_spec 0 ((dt - current) / datetime.US_DAY)) as [D|D];
    destruct (Z.leb_spec 1 ((dt - current) / datetime.US_DAY)) as [D'|D'];
    try lia; [reflexivity|].
  assert (Ed : (dt - current) / datetime.US_DAY = 0) by lia.
  rewrite (hours_of_short _ Hn Ed).
  assert (Hh : 0 <= (dt - current) / datetime.US_HOUR).
  { apply Z.div_pos; [lia|reflexivity]. }
  destruct (Z.ltb_spec 0 ((dt - current) / datetime.US_HOUR)) as [H|H];
    destruct (Z.leb_spec 1 ((dt - current) / datetime.US_HOUR)) as [H'|H'];
    try lia; [reflexivity|].
  assert (Eh : (dt - current) / datetime.US_HOUR = 0) by lia.
  rewrite (minutes_of_short _ Hn Ed Eh).
  destruct (Z.ltb_spec 0 ((dt - current) / datetime.US_MINUTE)) as [M|M];
    destruct (Z.leb_spec 1 ((dt - current) / datetime.US_MINUTE)) as [M'|M'];
    try lia; reflexivity.
Qed.

(** C4 as the spec has it fails: a timestamp equal to the reference time is
    rendered "now", not "past due". *)
Lemma format_relative_time_equal_is_now :
  format_relative_time example_due (Clock.frozen example_due) 0%nat
  = (Val "now", 1%nat)
  /\ format_relative_time example_due (Clock.frozen example_due) 0%nat
     <> (Val "past due", 1%nat).
Proof.
  split; [reflexivity|]. vm_compute. discriminate.
Qed.

(** C4, amended. [format_relative_time] reads the clock once and renders,
    against that reading, "past due" exactly when the timestamp is strictly
    before it, and otherwise the largest whole unit of the time remaining:
    days if at least one whole day, else hours if at least one whole hour,
    else minutes if at least one whole minute, else "now" (which is also
    the rendering of a timestamp equal to the reading). *)
Theorem format_relative_time_largest_unit (dt : datetime.t)
    (clk : Clock.clock) (n : nat) :
  format_relative_time dt clk n = (Val (largest_whole_unit (clk n) dt), S n)
  /\ (largest_whole_unit (clk n) dt = "past due" <-> dt < clk n)
  /\ largest_whole_unit dt dt = "now".
Proof.
  split; [|split].
  - unfold format_relative_time, Clock.bind, Clock.now, Clock.ret.
    rewrite format_relative_from_spec. reflexivity.
  - unfold largest_whole_unit.
    destruct (Z.ltb_spec dt (clk n)) as [H|H].
    + split; [intros _; exact H|reflexivity].
    + split; [|lia].
      destruct (1 <=? _); [discriminate|].
      destruct (1 <=? _); [discriminate|].
      destruct (1 <=? _); discriminate.
  - unfold largest_whole_unit. rewrite Z.ltb_irrefl, Z.sub_diag. reflexivity.
Qed.

End RelativeRendering.

(* ===================================================================== *)
(** * Absolute forms *)
(* ===================================================================== *)

Section AbsoluteForms.

Import TimeParser.

(** C8. The three literals "2025-07-06 10:00 AM", "'2025-07-06' '10:00 AM'"
    and "2025-07-06 10:00AM" parse, whatever the clock shows, to the same
    timestamp, 2025-07-06T10:00:00; [format_time] renders that timestamp as
    "2025-07-06 10:00 AM", which parses back to it. *)
Theorem absolute_literals_same_timestamp (clk : Clock.clock) (n : nat) :
  datetime.make 2025 7 6 10 0 0 0 = Some example_due
  /\ (datetime.year example_due, datetime.month example_due,
      datetime.day example_due, datetime.hour example_due,
      datetime.minute example_due, datetime.second example_due,
      datetime.microsecond example_due) = (2025, 7, 6, 10, 0, 0, 0)
  /\ parse_time "2025-07-06 10:00 AM" clk n = (Val (Some example_due), S n)
  /\ parse_time "'2025-07-06' '10:00 AM'" clk n = (Val (Some example_due), S n)
  /\ parse_time "2025-07-06 10:00AM" clk n = (Val (Some example_due), S n)
  /\ format_time example_due = "2025-07-06 10:00 AM"
  /\ parse_time (format_time example_due) clk n = (Val (Some example_due), S n).
Proof.
  repeat split; vm_compute; reflexivity.
Qed.

End AbsoluteForms.

(* ===================================================================== *)
(** * Task ids *)
(* ===================================================================== *)

Section TaskIds.

Import ValidationHelper.

Lemma rep_cls (p : ascii -> bool) (n : nat) (s : string) :
  Re.rep n (Re.cls p) s
  = match strip_class n p s with Some r => [([], r)] | None => [] end.
Proof.
  revert s. induction n as [|k IH]; intros s; simpl; [reflexivity|].
  unfold Re.seq, Re.cls at 1. destruct s as [|c r]; simpl; [reflexivity|].
  destruct (p c); simpl; [|reflexivity].
  rewrite IH. destruct (strip_class k p r); simpl; reflexivity.
Qed.

Lemma strip_class_spec (p : ascii -> bool) (n : nat) (s r : string) :
  strip_class n p s = Some r
  <-> exists h, String.length h = n /\ TaskManager.all_chars p h = true
                /\ s = h ++ r.
Proof.
  revert s. induction n as [|k IH]; intros s; simpl.
  - split.
    + intros H. injection H as <-. exists EmptyString. auto.
    + intros (h & Hl & _ & ->). destruct h; [reflexivity|discriminate].
  - destruct s as [|c s'].
    + split; [discriminate|].
      intros (h & Hl & _ & E). destruct h; discriminate.
    + destruct (p c) eqn:Pc.
      * rewrite IH. split.
        -- intros (h & Hl & Ha & ->). exists (String c h). simpl.
           rewrite Pc, Ha, Hl. auto.
        -- intros (h & Hl & Ha & E). destruct h as [|c' h']; [discriminate|].
           simpl in *. injection E as -> ->. injection Hl as Hl.
           apply andb_true_iff in Ha. destruct Ha as [_ Ha].
           exists h'. auto.
      * split; [discriminate|].
        intros (h & Hl & Ha & E). destruct h as [|c' h']; [discriminate|].
        simpl in *. injection E as -> ->. rewrite Pc in Ha. discriminate.
Qed.

Lemma append_empty_r (s : string) : s ++ EmptyString = s.
Proof.
  induction s as [|c r IH]; simpl; [reflexivity|]. rewrite IH. reflexivity.
Qed.

(** C9 fails on the code: the pattern ends in [$], which also matches just
    before a final newline, so the validator accepts a string exactly when
    it is 24 lower-case hexadecimal digits, alone or followed by one
    newline; the 25-character string "507f1f77bcf86cd799439011\n" is
    accepted. *)
Theorem validate_task_id_accepts_final_newline :
  validate_task_id (Some ("507f1f77bcf86cd799439011" ++ EmbedHelper.newline))
  = true
  /\ String.length ("507f1f77bcf86cd799439011" ++ EmbedHelper.newline) = 25%nat
  /\ validate_task_id (Some "507f1f77bcf86cd799439011") = true
  /\ validate_task_id (Some "507F1F77BCF86CD799439011") = false
  /\ validate_task_id (Some "invalid") = false
  /\ validate_task_id None = false
  /\ forall s,
       validate_task_id (Some s) = true
       <-> exists h, String.length h = 24%nat
                     /\ TaskManager.all_chars hex_lower h = true
                     /\ (s = h \/ s = h ++ EmbedHelper.newline).
Proof.
  repeat (split; [reflexivity|]).
  intros s.
  assert (E : validate_task_id (Some s)
              = match strip_class 24 hex_lower s with
                | Some EmptyString => true
                | Some (String c EmptyString) => Ascii.eqb c (PyStr.chr 10)
                | _ => false
                end).
  { unfold validate_task_id, Re.rmatch, task_id_re, Re.seq.
    rewrite rep_cls.
    destruct s as [|c0 s0]; [reflexivity|].
    destruct (strip_class 24 hex_lower (String c0 s0)) as [r|]; [|reflexivity].
    simpl. destruct r as [|c r]; [reflexivity|].
    destruct r; [|reflexivity].
    unfold Re.eol. destruct (Ascii.eqb c (PyStr.chr 10)); reflexivity. }
  rewrite E. split.
  - destruct (strip_class 24 hex_lower s) as [r|] eqn:St; [|discriminate].
    apply strip_class_spec in St. destruct St as (h & Hl & Ha & ->).
    destruct r as [|c r].
    + intros _. exists h. rewrite append_empty_r. auto.
    + destruct r; [|discriminate]. intros H. apply Ascii.eqb_eq in H. subst c.
      exists h. auto.
  - intros (h & Hl & Ha & [->| ->]).
    + assert (St : strip_class 24 hex_lower h = Some EmptyString).
      { apply strip_class_spec. exists h. rewrite append_empty_r. auto. }
      rewrite St. reflexivity.
    + assert (St : strip_class 24 hex_lower (h ++ EmbedHelper.newline)
                   = Some EmbedHelper.newline).
      { apply strip_class_spec. exists h. auto. }
      rewrite St. reflexivity.
Qed.

End TaskIds.

(* ===================================================================== *)
(** * What the parser reads of the clock *)
(* ===================================================================== *)

Section ClockReads.

Import Clock TimeParser.

Lemma reads_lift {A : Type} (r : res A) : reads 0 (lift r).
Proof.
  intros clk1 clk2 n1 n2 _. exists r, 0%nat. unfold lift.
  rewrite !Nat.add_0_r. auto.
Qed.

Lemma reads_ret {A : Type} (a : A) : reads 0 (ret a).
Proof. exact (reads_lift (Val a)). Qed.

Lemma reads_now : reads 1 now.
Proof.
  intros clk1 clk2 n1 n2 H. exists (Val (clk1 n1)), 1%nat. unfold now.
  specialize (H 0%nat (Nat.lt_0_1)). rewrite !Nat.add_0_r in H.
  rewrite <- H, !Nat.add_1_r. auto.
Qed.

Lemma reads_weaken {A : Type} (a b : nat) (c : M A) :
  (a <= b)%nat -> reads a c -> reads b c.
Proof.
  intros Hab Hc clk1 clk2 n1 n2 H.
  destruct (Hc clk1 clk2 n1 n2) as (r & d & Hd & E1 & E2).
  - intros i Hi. apply H. lia.
  - exists r, d. split; [lia|]. auto.
Qed.

Lemma reads_bind {A B : Type} (a b : nat) (c : M A) (f : A -> M B) :
  reads a c -> (forall x, reads b (f x)) -> reads (a + b) (bind c f).
Proof.
  intros Hc Hf clk1 clk2 n1 n2 H.
  destruct (Hc clk1 clk2 n1 n2) as (r & d & Hd & E1 & E2).
  - intros i Hi. apply H. lia.
  - unfold bind. rewrite E1, E2. destruct r as [x|e].
    + destruct (Hf x clk1 clk2 (n1 + d)%nat (n2 + d)%nat)
        as (r' & d' & Hd' & F1 & F2).
      * intros i Hi. rewrite <- !Nat.add_assoc. apply H. lia.
      * exists r', (d + d')%nat. rewrite F1, F2, !Nat.add_assoc.
        split; [lia|]. auto.
    + exists (Raise e), d. split; [lia|]. auto.
Qed.

Lemma reads_after (current us : Z) : reads 0 (after current us).
Proof.
  unfold after. apply (reads_bind 0 0); [apply reads_lift|].
  intros x. apply reads_lift.
Qed.

Lemma reads_get_next_weekday (weekday : string) :
  reads 2 (_get_next_weekday weekday).
Proof.
  unfold _get_next_weekday.
  apply (reads_bind 0 2); [apply reads_lift|]. intros target.
  apply (reads_bind 1 1); [apply reads_now|]. intros today.
  apply (reads_bind 1 0); [apply reads_now|]. intros base.
  apply (reads_bind 0 0); [apply reads_lift|]. intros delta.
  apply reads_lift.
Qed.

Lemma reads_get_specific_time (day : string) (hour minute : Z)
    (ampm : option string) :
  reads 1 (_get_specific_time day hour minute ampm).
Proof.
  unfold _get_specific_time.
  apply (reads_bind 1 0); [apply reads_now|]. intros current.
  apply (reads_bind 0 0); [apply reads_lift|]. intros target.
  destruct (String.eqb day "tomorrow").
  - apply (reads_bind 0 0); [apply reads_lift|]. intros delta. apply reads_lift.
  - apply reads_ret.
Qed.

Lemma reads_patterns (current : datetime.t) :
  Forall (fun ph : Re.rx * handler => forall m, reads 2 (snd ph m))
    (patterns current).
Proof.
  unfold patterns.
  repeat (constructor;
          [intros m; simpl;
           first [ apply (reads_weaken 0 2); [lia|apply reads_after]
                 | apply reads_get_next_weekday
                 | apply (reads_weaken 1 2); [lia|apply reads_get_specific_time] ]
          |]).
  constructor.
Qed.

Lemma reads_first_match (ps : list (Re.rx * handler)) (text : string) :
  Forall (fun ph : Re.rx * handler => forall m, reads 2 (snd ph m)) ps ->
  reads 2 (first_match ps text).
Proof.
  induction ps as [|[p h] rest IH]; intros HF; simpl.
  - apply (reads_weaken 0 2); [lia|apply reads_ret].
  - inversion HF as [|x l Hh Hrest Heq]; subst. simpl in Hh.
    destruct (Re.rmatch p text) as [m|].
    + apply (reads_bind 2 0); [apply Hh|]. intros r. apply reads_ret.
    + apply IH. exact Hrest.
Qed.

Lemma reads_parse_relative_time (text : string) :
  reads 3 (parse_relative_time text).
Proof.
  unfold parse_relative_time.
  apply (reads_bind 1 2); [apply reads_now|]. intros current.
  apply reads_first_match. apply reads_patterns.
Qed.

Lemma reads_parse_time (text : string) : reads 3 (parse_time text).
Proof.
  unfold parse_time.
  apply (reads_bind 3 0); [apply reads_parse_relative_time|].
  intros [r|]; apply reads_ret.
Qed.

(** C3 as the spec has it fails: the parser takes no reference time and
    reads the wall clock itself, more than once; two runs on the same text
    that start from the same reading differ when a later reading
    differs. *)
Lemma parse_time_reads_the_clock :
  frozen sunday_night 0%nat = passing_midnight 0%nat
  /\ fst (parse_time "next monday" (frozen sunday_night) 0%nat)
     <> fst (parse_time "next monday" passing_midnight 0%nat).
Proof.
  split; [reflexivity|]. vm_compute. discriminate.
Qed.

(** C3, amended. The result of [parse_time] is a function of the text and
    of the three clock readings that follow its start (it takes at most
    three): two runs on the same text that see the same three readings
    return the identical result, and take the same number of readings. *)
Theorem parse_time_function_of_readings (text : string) (clk1 clk2 : clock)
    (n1 n2 : nat) :
  (forall i, (i < 3)%nat -> clk1 (n1 + i)%nat = clk2 (n2 + i)%nat) ->
  fst (parse_time text clk1 n1) = fst (parse_time text clk2 n2)
  /\ (snd (parse_time text clk1 n1) - n1 = snd (parse_time text clk2 n2) - n2)%nat
  /\ (snd (parse_time text clk1 n1) <= n1 + 3)%nat.
Proof.
  intros H.
  destruct (reads_parse_time text clk1 clk2 n1 n2 H) as (r & d & Hd & E1 & E2).
  rewrite E1, E2. simpl. split; [reflexivity|]. split; lia.
Qed.

Lemma parse_time_function_of_readings_witness :
  fst (parse_time "Next Monday" (frozen example_due) 0%nat)
  = fst (parse_time "Next Monday" (frozen example_due) 5%nat).
Proof.
  apply (parse_time_function_of_readings "Next Monday"
           (frozen example_due) (frozen example_due) 0 5).
  intros i _. reflexivity.
Defined.

End ClockReads.

(* ===================================================================== *)
(** * "next <weekday>" *)
(* ===================================================================== *)

Section NextWeekday.

Import Clock TimeParser.








End NextWeekday.

(* ===================================================================== *)
(** * Strings: lengths, reversal, words *)
(* ===================================================================== *)

Section StringFacts.

Lemma length_append (a b : string) :
  String.length (a ++ b) = (String.length a + String.length b)%nat.
Proof.
  induction a as [|c a IH]; simpl; [reflexivity|]. rewrite IH. reflexivity.
Qed.

Lemma append_assoc (a b c : string) : (a ++ b) ++ c = a ++ (b ++ c).
Proof.
  induction a as [|x a IH]; simpl; [reflexivity|]. rewrite IH. reflexivity.
Qed.

Lemma length_substring0 (k : nat) (s : string) :
  String.length (substring 0 k s) = Nat.min k (String.length s).
Proof.
  revert s. induction k as [|k IH]; intros s.
  - destruct s; reflexivity.
  - destruct s as [|c s]; simpl; [reflexivity|]. rewrite IH. reflexivity.
Qed.

Lemma rev_onto_append (s acc : string) :
  PyStr.rev_onto s acc = PyStr.rev s ++ acc.
Proof.
  unfold PyStr.rev. revert acc. induction s as [|c s IH]; intros acc; simpl.
  - reflexivity.
  - rewrite IH. rewrite (IH (String c EmptyString)).
    rewrite append_assoc. reflexivity.
Qed.

Lemma rev_cons (c : ascii) (s : string) :
  PyStr.rev (String c s) = PyStr.rev s ++ String c EmptyString.
Proof.
  unfold PyStr.rev at 1. simpl. apply rev_onto_append.
Qed.

Lemma all_chars_append (p : ascii -> bool) (a b : string) :
  TaskManager.all_chars p (a ++ b)
  = TaskManager.all_chars p a && TaskManager.all_chars p b.
Proof.
  induction a as [|c a IH]; simpl; [reflexivity|].
  rewrite IH. rewrite andb_assoc. reflexivity.
Qed.

Lemma all_chars_rev (p : ascii -> bool) (s : string) :
  TaskManager.all_chars p (PyStr.rev s) = TaskManager.all_chars p s.
Proof.
  induction s as [|c s IH]; [reflexivity|].
  rewrite rev_cons, all_chars_append, IH. simpl.
  rewrite andb_true_r. apply andb_comm.
Qed.

Lemma rev_not_empty (c : ascii) (s : string) :
  PyStr.rev (String c s) <> EmptyString.
Proof.
  rewrite rev_cons. destruct (PyStr.rev s); discriminate.
Qed.

End StringFacts.

(* ===================================================================== *)
(** * Sanitizing user input *)
(* ===================================================================== *)

Section Sanitize.

Import ValidationHelper.

Lemma split_aux_words (s cur : string) :
  TaskManager.all_chars not_space cur = true ->
  Forall word (PyStr.split_aux s cur).
Proof.
  revert cur. induction s as [|c s IH]; intros cur Hc; simpl.
  - destruct cur as [|x cur]; constructor; [|constructor].
    split; [apply rev_not_empty|]. rewrite all_chars_rev. exact Hc.
  - destruct (PyStr.is_space c) eqn:Sp.
    + destruct cur as [|x cur]; [apply IH; reflexivity|].
      constructor; [|apply IH; reflexivity].
      split; [apply rev_not_empty|]. rewrite all_chars_rev. exact Hc.
    + apply IH. simpl. unfold not_space at 1. rewrite Sp. exact Hc.
Qed.

Lemma single_spaced_word (w r : string) (b : bool) :
  word w -> single_spaced b (w ++ r) = single_spaced true r.
Proof.
  intros [Hn Ha]. revert b. induction w as [|c w IH]; intros b; [contradiction|].
  simpl in *. apply andb_true_iff in Ha. destruct Ha as [Hc Hw].
  unfold not_space in Hc. apply negb_true_iff in Hc. rewrite Hc.
  destruct w as [|d w]; [reflexivity|]. apply IH; [discriminate|exact Hw].
Qed.

Lemma single_spaced_join (ws : list string) (b : bool) :
  Forall word ws -> ws <> [] -> single_spaced b (PyStr.join " " ws) = true.
Proof.
  intros HF. revert b. induction HF as [|w ws Hw HF IH]; intros b Hne;
    [contradiction|].
  destruct ws as [|y ws].
  - simpl. rewrite <- (append_empty_r w). rewrite single_spaced_word by exact Hw.
    reflexivity.
  - change (PyStr.join " " (w :: y :: ws))
      with (w ++ " " ++ PyStr.join " " (y :: ws)).
    rewrite single_spaced_word by exact Hw.
    change (" " ++ PyStr.join " " (y :: ws))
      with (String " " (PyStr.join " " (y :: ws))).
    simpl single_spaced. apply IH. discriminate.
Qed.

Lemma join_split_aux (s cur : string) (b : bool) :
  (b = true <-> cur <> EmptyString) ->
  single_spaced b s = true ->
  PyStr.join " " (PyStr.split_aux s cur) = PyStr.rev cur ++ s.
Proof.
  revert cur b. induction s as [|c s IH]; intros cur b Hb Hs; simpl in *.
  - subst b. destruct cur as [|x cur]; [exfalso; apply (proj1 Hb eq_refl); reflexivity|].
    simpl. rewrite append_empty_r. reflexivity.
  - destruct (PyStr.is_space c) eqn:Sp.
    + apply andb_true_iff in Hs. destruct Hs as [Hs Hr].
      apply andb_true_iff in Hs. destruct Hs as [Hbt Hc].
      apply Ascii.eqb_eq in Hc. subst c.
      destruct cur as [|x cur]; [exfalso; apply (proj1 Hb Hbt); reflexivity|].
      assert (E : PyStr.join " " (PyStr.split_aux s EmptyString) = s).
      { rewrite (IH EmptyString false); [reflexivity| |exact Hr].
        split; [discriminate|intros H; exfalso; apply H; reflexivity]. }
      destruct (PyStr.split_aux s EmptyString) as [|y l] eqn:L.
      * simpl in E. subst s. simpl in Hr. discriminate.
      * change (PyStr.join " " (PyStr.rev (String x cur) :: y :: l))
          with (PyStr.rev (String x cur) ++ " " ++ PyStr.join " " (y :: l)).
        rewrite E. reflexivity.
    + rewrite (IH (String c cur) true); [|split; [discriminate|reflexivity]|exact Hs].
      rewrite rev_cons, append_assoc. reflexivity.
Qed.

Lemma join_split_tidy (s : string) :
  single_spaced false s = true -> PyStr.join " " (PyStr.split s) = s.
Proof.
  intros H. unfold PyStr.split.
  rewrite (join_split_aux s EmptyString false); [reflexivity| |exact H].
  split; [discriminate|intros E; exfalso; apply E; reflexivity].
Qed.

Lemma normalized_tidy (s : string) :
  PyStr.join " " (PyStr.split s) = EmptyString
  \/ single_spaced false (PyStr.join " " (PyStr.split s)) = true.
Proof.
  pose proof (split_aux_words s EmptyString eq_refl) as HF.
  fold (PyStr.split s) in HF.
  destruct (PyStr.split s) as [|w ws] eqn:E; [left; reflexivity|].
  right. apply single_spaced_join; [exact HF|discriminate].
Qed.

Lemma truncated_tidy (t : string) (k : nat) (b : bool) :
  single_spaced b t = true ->
  single_spaced b (substring 0 k t ++ "...") = true.
Proof.
  revert t b. induction k as [|k IH]; intros t b H.
  - destruct t; reflexivity.
  - destruct t as [|c t]; [reflexivity|].
    simpl in *. destruct (PyStr.is_space c).
    + apply andb_true_iff in H. destruct H as [H1 H2]. rewrite H1. simpl.
      apply IH. exact H2.
    + apply IH. exact H.
Qed.

Lemma slice_to_prefix (t : string) (k : Z) :
  0 <= k <= Z.of_nat (String.length t) ->
  slice_to t k = substring 0 (Z.to_nat k) t
  /\ String.length (slice_to t k) = Z.to_nat k.
Proof.
  intros H. unfold slice_to.
  destruct (Z.ltb_spec k 0) as [Hk|Hk]; [lia|].
  rewrite Z.min_l by lia. split; [reflexivity|].
  rewrite length_substring0. lia.
Qed.

(** X1. For a limit of at least 3, [sanitize_input] returns at most
    [max_length] characters; when the text with its white space collapsed
    is longer than the limit, the result is its first [max_length - 3]
    characters followed by "...", exactly [max_length] characters long. *)
Theorem sanitize_input_bounded (text : string) (max_length : Z) :
  3 <= max_length ->
  Z.of_nat (String.length (sanitize_input text max_length)) <= max_length
  /\ (max_length
      < Z.of_nat (String.length (PyStr.join " " (PyStr.split text))) ->
      sanitize_input text max_length
      = substring 0 (Z.to_nat (max_length - 3))
          (PyStr.join " " (PyStr.split text)) ++ "..."
      /\ Z.of_nat (String.length (sanitize_input text max_length)) = max_length).
Proof.
  intros Hm. unfold sanitize_input.
  destruct text as [|c text]; [simpl; split; [lia|intros H; lia]|].
  set (t := PyStr.join " " (PyStr.split (String c text))).
  destruct (Z.ltb_spec max_length (Z.of_nat (String.length t))) as [Hl|Hl].
  - destruct (slice_to_prefix t (max_length - 3)) as [E L]; [lia|].
    rewrite length_append, L, E. simpl String.length.
    split; [lia|]. intros _. split; [reflexivity|lia].
  - split; [exact Hl|]. intros H. lia.
Qed.

Lemma sanitize_input_bounded_witness :
  Z.of_nat (String.length (sanitize_input "  buy    milk  and   bread " 10)) <= 10.
Proof.
  apply (sanitize_input_bounded "  buy    milk  and   bread " 10). lia.
Defined.

Lemma sanitize_input_tidy (text : string) (max_length : Z) :
  3 <= max_length ->
  sanitize_input text max_length = EmptyString
  \/ single_spaced false (sanitize_input text max_length) = true.
Proof.
  intros Hm. unfold sanitize_input.
  destruct text as [|c text]; [left; reflexivity|].
  set (t := PyStr.join " " (PyStr.split (String c text))).
  destruct (normalized_tidy (String c text)) as [E|T]; fold t in E || fold t in T.
  - rewrite E. simpl. destruct (Z.ltb_spec max_length 0); [lia|]. left; reflexivity.
  - destruct (Z.ltb_spec max_length (Z.of_nat (String.length t))) as [Hl|Hl].
    + right. destruct (slice_to_prefix t (max_length - 3)) as [E _]; [lia|].
      rewrite E. apply truncated_tidy. exact T.
    + right. exact T.
Qed.

(** X2. For a limit of at least 3, the result of [sanitize_input] is empty
    or is made of words separated by exactly one space: it holds no white
    space other than single spaces between words, and neither starts nor
    ends with a white-space character. *)
Theorem sanitize_input_single_spaced (text : string) (max_length : Z) :
  3 <= max_length ->
  let out := sanitize_input text max_length in
  out = EmptyString
  \/ (single_spaced false out = true
      /\ exists (c : ascii) (r : string),
           out = String c r /\ PyStr.is_space c = false
           /\ PyStr.lstrip out = out).
Proof.
  intros Hm out. destruct (sanitize_input_tidy text max_length Hm) as [E|T];
    [left; exact E|]. right. split; [exact T|]. fold out in T.
  destruct out as [|c r]; [discriminate|].
  exists c, r. simpl in T. destruct (PyStr.is_space c) eqn:Sp; [discriminate|].
  split; [reflexivity|]. split; [reflexivity|]. simpl. rewrite Sp. reflexivity.
Qed.

Lemma sanitize_input_single_spaced_witness :
  sanitize_input "  buy    milk  and   bread " 10 = EmptyString
  \/ (single_spaced false (sanitize_input "  buy    milk  and   bread " 10) = true
      /\ exists (c : ascii) (r : string),
           sanitize_input "  buy    milk  and   bread " 10 = String c r
           /\ PyStr.is_space c = false
           /\ PyStr.lstrip (sanitize_input "  buy    milk  and   bread " 10)
              = sanitize_input "  buy    milk  and   bread " 10).
Proof.
  apply (sanitize_input_single_spaced "  buy    milk  and   bread " 10). lia.
Defined.

(** X3. For a limit of at least 3, [sanitize_input] is idempotent:
    sanitizing a sanitized text with the same limit changes nothing. *)
Theorem sanitize_input_idempotent (text : string) (max_length : Z) :
  3 <= max_length ->
  sanitize_input (sanitize_input text max_length) max_length
  = sanitize_input text max_length.
Proof.
  intros Hm.
  destruct (sanitize_input_bounded text max_length Hm) as [Hlen _].
  destruct (sanitize_input_tidy text max_length Hm) as [E|T].
  - rewrite E. reflexivity.
  - set (out := sanitize_input text max_length) in *.
    unfold sanitize_input at 1.
    destruct out as [|c r] eqn:Eo; [reflexivity|].
    rewrite (join_split_tidy _ T).
    destruct (Z.ltb_spec max_length (Z.of_nat (String.length (String c r))));
      [lia|reflexivity].
Qed.

Lemma sanitize_input_idempotent_witness :
  sanitize_input (sanitize_input "  buy    milk  and   bread " 10) 10
  = sanitize_input "  buy    milk  and   bread " 10.
Proof.
  apply (sanitize_input_idempotent "  buy    milk  and   bread " 10). lia.
Defined.

End Sanitize.

(* ===================================================================== *)
(** * Pagination *)
(* ===================================================================== *)

Section Pagination.

Import PaginationHelper.

Variable A : Type.
Variable items : list A.
Variable size : Z.
Hypothesis size_pos : 0 < size.

Let n : Z := Z.of_nat (List.length items).

Lemma range_up_bounds (fuel : nat) (i j : Z) :
  0 <= i -> In j (range_up fuel i n size) -> 0 <= j < n.
Proof.
  revert i. induction fuel as [|f IH]; intros i Hi; simpl; [intros []|].
  destruct (Z.ltb_spec i n) as [Hl|Hl]; [|intros []].
  intros [<-|H]; [lia|]. apply (IH (i + size)); [lia|exact H].
Qed.

Lemma range_up_concat (fuel : nat) (i : Z) :
  0 <= i -> n - i <= Z.of_nat fuel ->
  List.concat (map (fun j => slice items j (j + size)) (range_up fuel i n size))
  = skipn (Z.to_nat i) items.
Proof.
  revert i. induction fuel as [|f IH]; intros i Hi Hf; simpl.
  - symmetry. apply skipn_all2. unfold n in Hf. lia.
  - destruct (Z.ltb_spec i n) as [Hl|Hl].
    + simpl. rewrite IH by lia. unfold slice.
      replace (i + size - i) with size by lia.
      replace (Z.to_nat (i + size)) with (Z.to_nat size + Z.to_nat i)%nat by lia.
      rewrite <- skipn_skipn. apply firstn_skipn.
    + symmetry. apply skipn_all2. unfold n in Hl. lia.
Qed.

Lemma range_up_length (fuel : nat) (i : Z) :
  0 <= i -> n - i <= Z.of_nat fuel ->
  Z.of_nat (List.length (range_up fuel i n size))
  = Z.max 0 ((n - i + size - 1) / size).
Proof.
  revert i. induction fuel as [|f IH]; intros i Hi Hf; simpl.
  - assert (H : (n - i + size - 1) / size <= 0).
    { apply Z.lt_succ_r. apply Z.div_lt_upper_bound; lia. }
    lia.
  - destruct (Z.ltb_spec i n) as [Hl|Hl].
    + simpl List.length. rewrite Nat2Z.inj_succ, IH by lia.
      replace (n - i + size - 1) with (n - (i + size) + size - 1 + 1 * size) by lia.
      rewrite Z.div_add by lia.
      assert (H : 0 <= (n - (i + size) + size - 1) / size).
      { apply Z.div_pos; lia. }
      lia.
    + simpl. assert (H : (n - i + size - 1) / size <= 0).
      { apply Z.lt_succ_r. apply Z.div_lt_upper_bound; lia. }
      lia.
Qed.

Lemma range_up_nth (fuel : nat) (i : Z) (k : nat) :
  i + Z.of_nat k * size < n -> (k < fuel)%nat ->
  nth_error (range_up fuel i n size) k = Some (i + Z.of_nat k * size).
Proof.
  revert i k. induction fuel as [|f IH]; intros i k Hk Hf; [lia|].
  simpl. destruct (Z.ltb_spec i n) as [Hl|Hl]; [|nia].
  destruct k as [|k]; simpl nth_error.
  - f_equal. lia.
  - rewrite IH by lia. f_equal. lia.
Qed.

Lemma slice_length (j : Z) :
  0 <= j < n ->
  (1 <= List.length (slice items j (j + size)) <= Z.to_nat size)%nat.
Proof.
  intros Hj. unfold slice. replace (j + size - j) with size by lia.
  rewrite length_firstn, length_skipn. unfold n in Hj. lia.
Qed.

End Pagination.

Section PaginationClaims.

Import PaginationHelper.

(** X4. [chunk_list] with a positive chunk size cuts the list into
    consecutive chunks: their concatenation is the list, every chunk holds
    between one and [chunk_size] items, and there are
    [ceil(len / chunk_size)] of them.  A chunk size of zero raises
    [ValueError]; a negative one returns no chunk at all, whatever the
    list. *)
Theorem chunk_list_partitions (A : Type) (items : list A) (chunk_size : Z) :
  (0 < chunk_size ->
   exists chunks,
     chunk_list items chunk_size = Val chunks
     /\ List.concat chunks = items
     /\ Forall (fun c => (1 <= List.length c <= Z.to_nat chunk_size)%nat) chunks
     /\ Z.of_nat (List.length chunks)
        = (Z.of_nat (List.length items) + chunk_size - 1) / chunk_size)
  /\ (chunk_size = 0 -> chunk_list items chunk_size = Raise ValueError)
  /\ (chunk_size < 0 -> chunk_list items chunk_size = Val []).
Proof.
  split; [|split].
  - intros Hp. unfold chunk_list, range0.
    destruct (Z.eqb_spec chunk_size 0) as [E|_]; [lia|].
    destruct (Z.ltb_spec chunk_size 0) as [E|_]; [lia|].
    eexists. split; [reflexivity|]. split; [|split].
    + rewrite (range_up_concat A items chunk_size Hp) by lia. reflexivity.
    + apply Forall_forall. intros c Hc. apply in_map_iff in Hc.
      destruct Hc as (j & <- & Hj).
      apply (slice_length A items chunk_size Hp).
      eapply (range_up_bounds A items chunk_size Hp); [|exact Hj]. lia.
    + rewrite length_map.
      rewrite (range_up_length A items chunk_size Hp) by lia.
      rewrite Z.sub_0_r.
      assert (H : 0 <= (Z.of_nat (List.length items) + chunk_size - 1) / chunk_size).
      { apply Z.div_pos; lia. }
      lia.
  - intros ->. reflexivity.
  - intros Hn. unfold chunk_list, range0.
    destruct (Z.eqb_spec chunk_size 0) as [E|_]; [lia|].
    destruct (Z.ltb_spec chunk_size 0) as [_|E]; [reflexivity|lia].
Qed.

Lemma paginate_nth (A E : Type) (f : list A -> string -> E) (title : string)
    (total i : Z) (chunks : list (list A)) (k : nat) :
  nth_error (paginate f title total i chunks) k
  = option_map (fun c => f c (page_title title (i + Z.of_nat k) total))
      (nth_error chunks k).
Proof.
  revert i k. induction chunks as [|c rest IH]; intros i k; simpl.
  - destruct k; reflexivity.
  - destruct k as [|k]; simpl.
    + rewrite Z.add_0_r. reflexivity.
    + rewrite IH. destruct (nth_error rest k); simpl; [|reflexivity].
      do 3 f_equal. lia.
Qed.

Lemma paginate_length (A E : Type) (f : list A -> string -> E) (title : string)
    (total i : Z) (chunks : list (list A)) :
  List.length (paginate f title total i chunks) = List.length chunks.
Proof.
  revert i. induction chunks as [|c rest IH]; intros i; simpl; [reflexivity|].
  rewrite IH. reflexivity.
Qed.

(** X5. [create_paginated_embeds] makes [ceil(len / 10)] pages, none for an
    empty list; page [k] (counted from 1) is made by the creator function
    from the items [10 (k - 1)] up to [10 k], under the title
    "<title> (Page k/total)". *)
Theorem create_paginated_embeds_pages (A E : Type) (items : list A)
    (title : string) (embed_creator_func : list A -> string -> E) :
  exists embeds,
    create_paginated_embeds items title embed_creator_func = Val embeds
    /\ Z.of_nat (List.length embeds) = (Z.of_nat (List.length items) + 9) / 10
    /\ forall k : nat,
         10 * Z.of_nat k < Z.of_nat (List.length items) ->
         nth_error embeds k
         = Some (embed_creator_func
                   (slice items (10 * Z.of_nat k) (10 * Z.of_nat k + 10))
                   (page_title title (Z.of_nat k + 1)
                      ((Z.of_nat (List.length items) + 9) / 10))).
Proof.
  destruct (chunk_list_partitions A items 10) as [H _].
  destruct (H ltac:(lia)) as (chunks & Ec & _ & _ & Hl).
  unfold create_paginated_embeds. rewrite Ec. eexists. split; [reflexivity|].
  rewrite paginate_length.
  replace (Z.of_nat (List.length items) + 10 - 1)
    with (Z.of_nat (List.length items) + 9) in Hl by lia.
  split; [exact Hl|]. intros k Hk.
  rewrite paginate_nth, Hl.
  unfold chunk_list, range0 in Ec. simpl in Ec. injection Ec as <-.
  rewrite nth_error_map.
  rewrite (range_up_nth A items 10 ltac:(lia) _ 0 k) by lia.
  cbn [option_map].
  replace (0 + Z.of_nat k * 10) with (10 * Z.of_nat k) by lia.
  replace (1 + Z.of_nat k) with (Z.of_nat k + 1) by lia.
  reflexivity.
Qed.

End PaginationClaims.

(* ===================================================================== *)
(** * Adding and removing jobs *)
(* ===================================================================== *)

Section JobFrames.

Import ReminderScheduler.

Lemma get_job_delete_other (id id' : string) (js : jobs) :
  id <> id' -> get_job id (delete_job id' js) = get_job id js.
Proof.
  intros Hne. induction js as [|k r IH]; simpl; [reflexivity|].
  destruct (String.eqb id' (job_id k)) eqn:E'; simpl.
  - apply String.eqb_eq in E'.
    destruct (String.eqb id (job_id k)) eqn:E; [|reflexivity].
    apply String.eqb_eq in E. congruence.
  - rewrite IH. reflexivity.
Qed.






(** X6. [remove_reminder] reports whether the reminder had a job; either
    way the table then holds no job for it, the jobs of every other id are
    as before, and a table that had no job for it is returned as it was
    (removing an absent reminder is not an error). *)
Theorem remove_reminder_only_its_job (js : jobs) (rid : string) :
  unique_ids js ->
  snd (remove_reminder rid js)
  = match get_job (job_id_of rid) js with Some _ => true | None => false end
  /\ get_job (job_id_of rid) (fst (remove_reminder rid js)) = None
  /\ (forall id, id <> job_id_of rid ->
        get_job id (fst (remove_reminder rid js)) = get_job id js)
  /\ (get_job (job_id_of rid) js = None -> fst (remove_reminder rid js) = js).
Proof.
  intros ND. unfold remove_reminder, remove_job.
  destruct (get_job (job_id_of rid) js) as [j|] eqn:G; simpl.
  - split; [reflexivity|]. split.
    + apply get_job_None. apply delete_job_absent. exact ND.
    + split; [|discriminate]. intros id Hne. apply get_job_delete_other. exact Hne.
  - split; [reflexivity|]. split; [exact G|]. split; auto.
Qed.

Lemma remove_reminder_only_its_job_witness :
  get_job (job_id_of example_rid) (fst (remove_reminder example_rid [example_job]))
  = None.
Proof.
  apply (remove_reminder_only_its_job [example_job] example_rid).
  unfold unique_ids. simpl. constructor; [intros []|constructor].
Defined.




End JobFrames.

(* ===================================================================== *)
(** * The task collection *)
(* ===================================================================== *)

Section Tasks.

Import TaskManager.

Lemma option_eqb_Z (a b : option Z) : option_eqb Z.eqb a b = true <-> a = b.
Proof.
  destruct a as [x|], b as [y|]; simpl; split; try discriminate; try reflexivity.
  - intros H. apply Z.eqb_eq in H. congruence.
  - intros H. injection H as ->. apply Z.eqb_refl.
Qed.

Lemma task_eqb_eq (a b : Task) : task_eqb a b = true <-> a = b.
Proof.
  split.
  - unfold task_eqb. intros H.
    repeat (apply andb_true_iff in H; destruct H as [H ?]).
    destruct a, b; simpl in *.
    repeat match goal with
    | E : String.eqb _ _ = true |- _ => apply String.eqb_eq in E
    | E : Z.eqb _ _ = true |- _ => apply Z.eqb_eq in E
    | E : option_eqb _ _ _ = true |- _ => apply option_eqb_Z in E
    | E : Bool.eqb _ _ = true |- _ => apply Bool.eqb_prop in E
    end.
    subst. reflexivity.
  - intros <-. unfold task_eqb.
    rewrite !String.eqb_refl, !Z.eqb_refl, Bool.eqb_reflx.
    rewrite (proj2 (option_eqb_Z _ _) eq_refl). reflexivity.
Qed.

Lemma apply_updates_oid (t : Task) (us : list field_update) :
  task_oid (apply_updates t us) = task_oid t
  /\ task_user_id (apply_updates t us) = task_user_id t.
Proof.
  unfold apply_updates. revert t. induction us as [|u us IH]; intros t; simpl.
  - auto.
  - destruct (IH (apply_update t u)) as [E1 E2]. rewrite E1, E2.
    destruct u; auto.
Qed.

Lemma find_has_oid (o : string) (ts : list Task) (t : Task) :
  find (has_oid o) ts = Some t -> In t ts /\ task_oid t = o.
Proof.
  intros H. destruct (find_some _ _ H) as [H1 H2].
  split; [exact H1|]. unfold has_oid in H2. apply String.eqb_eq in H2.
  symmetry. exact H2.
Qed.

Lemma find_update_one_task (o o' : string) (us : list field_update)
    (ts : list Task) :
  find (has_oid o) (fst (update_one_task o' us ts))
  = option_map (fun t => if String.eqb o' (task_oid t) then apply_updates t us else t)
      (find (has_oid o) ts).
Proof.
  induction ts as [|t rest IH]; simpl; [reflexivity|].
  destruct (String.eqb o' (task_oid t)) eqn:E'; simpl.
  - unfold has_oid at 1 3.
    rewrite (proj1 (apply_updates_oid t us)).
    destruct (String.eqb o (task_oid t)) eqn:E; simpl.
    + rewrite E'. reflexivity.
    + destruct (find (has_oid o) rest) as [t1|] eqn:F; simpl; [|reflexivity].
      destruct (find_has_oid _ _ _ F) as [_ Hid].
      apply String.eqb_eq in E'. apply String.eqb_neq in E.
      destruct (String.eqb o' (task_oid t1)) eqn:E1; [|reflexivity].
      apply String.eqb_eq in E1. exfalso. apply E. congruence.
  - destruct (update_one_task o' us rest) as [rest' n]. simpl in *.
    unfold has_oid at 1 3.
    destruct (String.eqb o (task_oid t)) eqn:E; simpl.
    + rewrite E'. reflexivity.
    + exact IH.
Qed.

Lemma update_one_task_count (o : string) (us : list field_update)
    (ts : list Task) :
  snd (update_one_task o us ts)
  = match find (has_oid o) ts with
    | Some t => if task_eqb (apply_updates t us) t then 0 else 1
    | None => 0
    end.
Proof.
  induction ts as [|t rest IH]; simpl; [reflexivity|].
  unfold has_oid at 1.
  destruct (String.eqb o (task_oid t)); simpl; [reflexivity|].
  destruct (update_one_task o us rest) as [rest' n]. simpl in *. exact IH.
Qed.

Lemma find_delete_one_task (o o' : string) (ts : list Task) :
  o <> o' ->
  find (has_oid o) (fst (delete_one_task o' ts)) = find (has_oid o) ts.
Proof.
  intros Hne. induction ts as [|t rest IH]; simpl; [reflexivity|].
  destruct (String.eqb o' (task_oid t)) eqn:E'; simpl.
  - unfold has_oid at 2. apply String.eqb_eq in E'.
    destruct (String.eqb o (task_oid t)) eqn:E; [|reflexivity].
    apply String.eqb_eq in E. congruence.
  - destruct (delete_one_task o' rest) as [rest' n]. simpl in *.
    unfold has_oid at 1 3. destruct (String.eqb o (task_oid t)); [reflexivity|].
    exact IH.
Qed.

Lemma find_absent (o : string) (ts : list Task) :
  ~ In o (map task_oid ts) -> find (has_oid o) ts = None.
Proof.
  induction ts as [|t rest IH]; simpl; [reflexivity|].
  intros H. unfold has_oid at 1.
  destruct (String.eqb o (task_oid t)) eqn:E.
  - apply String.eqb_eq in E. exfalso. apply H. left. symmetry. exact E.
  - apply IH. intros H1. apply H. right. exact H1.
Qed.

Lemma delete_one_task_gone (o : string) (ts : list Task) :
  NoDup (map task_oid ts) ->
  find (has_oid o) (fst (delete_one_task o ts)) = None.
Proof.
  induction ts as [|t rest IH]; simpl; [reflexivity|].
  intros ND. inversion ND as [|x l Hx ND' Heq]; subst.
  destruct (String.eqb o (task_oid t)) eqn:E; simpl.
  - apply find_absent. apply String.eqb_eq in E. rewrite E. exact Hx.
  - destruct (delete_one_task o rest) as [rest' n] eqn:D. simpl in *.
    unfold has_oid at 1. rewrite E. apply IH. exact ND'.
Qed.

Lemma delete_one_task_count (o : string) (ts : list Task) :
  snd (delete_one_task o ts)
  = match find (has_oid o) ts with Some _ => 1 | None => 0 end.
Proof.
  induction ts as [|t rest IH]; simpl; [reflexivity|].
  unfold has_oid at 1.
  destruct (String.eqb o (task_oid t)); simpl; [reflexivity|].
  destruct (delete_one_task o rest) as [rest' n]. simpl in *. exact IH.
Qed.

Lemma get_task_by_id_find (d : db) (id : string) :
  get_task_by_id d id
  = match ObjectId id with
    | Some o => find (has_oid o) (tasks_collection d)
    | None => None
    end.
Proof. reflexivity. Qed.

(** X9. [delete_task] with an id that [ObjectId] refuses returns [False]
    and leaves the store as it is.  Otherwise it returns whether a task
    with the id existed, the task can no longer be fetched, every other
    task is fetched as before, and the reminders left are exactly those
    whose [task_id] field is not the given id. *)
Theorem delete_task_cascades (d : db) (id : string) :
  (ObjectId id = None -> delete_task d id = (d, false))
  /\ (forall o, ObjectId id = Some o ->
        snd (delete_task d id)
        = match get_task_by_id d id with Some _ => true | None => false end
        /\ (unique_task_ids d -> get_task_by_id (fst (delete_task d id)) id = None)
        /\ (forall id', ObjectId id' <> Some o ->
              get_task_by_id (fst (delete_task d id)) id' = get_task_by_id d id')
        /\ (forall r, In r (reminders_collection (fst (delete_task d id)))
                      <-> In r (reminders_collection d) /\ task_id r <> id)).
Proof.
  split.
  - intros H. unfold delete_task. rewrite H. reflexivity.
  - intros o H.
    assert (E1 : fst (delete_task d id)
                 = mk_db (fst (delete_one_task o (tasks_collection d)))
                     (filter (fun r => negb (String.eqb id (task_id r)))
                        (reminders_collection d))).
    { unfold delete_task. rewrite H.
      destruct (delete_one_task o (tasks_collection d)); reflexivity. }
    assert (E2 : snd (delete_task d id)
                 = (0 <? snd (delete_one_task o (tasks_collection d)))).
    { unfold delete_task. rewrite H.
      destruct (delete_one_task o (tasks_collection d)); reflexivity. }
    rewrite E1, E2. split; [|split; [|split]].
    + rewrite delete_one_task_count, get_task_by_id_find, H.
      destruct (find (has_oid o) (tasks_collection d)); reflexivity.
    + intros U. rewrite get_task_by_id_find, H. simpl.
      apply delete_one_task_gone. exact U.
    + intros id' Hne. rewrite !get_task_by_id_find. simpl.
      destruct (ObjectId id') as [o'|]; [|reflexivity].
      apply find_delete_one_task. intros E. apply Hne. rewrite E. reflexivity.
    + intros r. simpl. rewrite filter_In, negb_true_iff, String.eqb_neq.
      split; intros [H1 H2]; split; auto.
Qed.

(** X10. [update_task] on a task that exists leaves it, when fetched
    again, with the updates applied (a due date as the store keeps it, to
    the millisecond); it returns [True] exactly when that changed the task,
    so [False] for an update that sets what is already there; every other
    task and every reminder is as before. *)
Theorem update_task_then_get (d : db) (id o : string) (task : Task)
    (updates : list field_update) :
  ObjectId id = Some o ->
  get_task_by_id d id = Some task ->
  get_task_by_id (fst (update_task d id updates)) id
  = Some (apply_updates task updates)
  /\ (snd (update_task d id updates) = true
      <-> apply_updates task updates <> task)
  /\ (forall id', ObjectId id' <> Some o ->
        get_task_by_id (fst (update_task d id updates)) id'
        = get_task_by_id d id')
  /\ reminders_collection (fst (update_task d id updates))
     = reminders_collection d.
Proof.
  intros HO HG. rewrite get_task_by_id_find, HO in HG.
  unfold update_task. rewrite HO.
  pose proof (update_one_task_count o updates (tasks_collection d)) as C.
  pose proof (fun o' => find_update_one_task o' o updates (tasks_collection d)) as F.
  destruct (update_one_task o updates (tasks_collection d)) as [ts n].
  simpl in *. rewrite HG in C.
  split; [|split; [|split]].
  - rewrite get_task_by_id_find. simpl. rewrite HO, F, HG. simpl.
    destruct (find_has_oid _ _ _ HG) as [_ E]. rewrite E, String.eqb_refl.
    reflexivity.
  - rewrite C.
    destruct (task_eqb (apply_updates task updates) task) eqn:E.
    + apply task_eqb_eq in E. split; [discriminate|]. intros H. contradiction.
    + split; [|reflexivity]. intros _ H. apply task_eqb_eq in H. congruence.
  - intros id' Hne. rewrite !get_task_by_id_find. simpl.
    destruct (ObjectId id') as [o'|]; [|reflexivity].
    rewrite F. destruct (find (has_oid o') (tasks_collection d)) as [t|] eqn:Ft;
      [|reflexivity].
    simpl. destruct (find_has_oid _ _ _ Ft) as [_ E].
    destruct (String.eqb o (task_oid t)) eqn:E1; [|reflexivity].
    apply String.eqb_eq in E1. exfalso. apply Hne. congruence.
  - reflexivity.
Qed.

Lemma update_task_then_get_witness :
  get_task_by_id
    (fst (update_task (ReminderJobHandler.store example_state) example_tid
            [SetPriority "high"; SetCompleted true])) example_tid
  = Some (apply_updates example_task [SetPriority "high"; SetCompleted true]).
Proof.
  exact (proj1 (update_task_then_get (ReminderJobHandler.store example_state)
                  example_tid example_tid example_task
                  [SetPriority "high"; SetCompleted true] eq_refl eq_refl)).
Defined.

Lemma find_snoc (o : string) (ts : list Task) (t : Task) :
  find (has_oid o) (ts ++ [t])%list
  = match find (has_oid o) ts with
    | Some x => Some x
    | None => if has_oid o t then Some t else None
    end.
Proof.
  induction ts as [|x rest IH]; simpl; [reflexivity|].
  destruct (has_oid o x); [reflexivity|exact IH].
Qed.

(** X11. [create_task] with a fresh object id returns that id; fetching it
    then gives the task as stored (with the id, dates to the millisecond),
    and every task that could be fetched before is fetched unchanged. *)
Theorem create_task_then_get (d : db) (task : Task) (new_id : string) :
  ObjectId new_id = Some new_id ->
  ~ In new_id (map task_oid (tasks_collection d)) ->
  exists d',
    create_task d task new_id = Some (d', new_id)
    /\ get_task_by_id d' new_id = Some (stored_task new_id task)
    /\ (forall id t, get_task_by_id d id = Some t -> get_task_by_id d' id = Some t)
    /\ reminders_collection d' = reminders_collection d.
Proof.
  intros HO Hf. unfold create_task.
  assert (E : existsb (fun t => String.eqb new_id (task_oid t)) (tasks_collection d)
              = false).
  { destruct (existsb _ _) eqn:X; [|reflexivity]. exfalso.
    apply existsb_exists in X. destruct X as (t & Ht & Et).
    apply String.eqb_eq in Et. apply Hf. rewrite Et. apply in_map. exact Ht. }
  rewrite E. eexists. split; [reflexivity|]. split; [|split].
  - rewrite get_task_by_id_find, HO. simpl. rewrite find_snoc.
    rewrite (find_absent _ _ Hf). unfold has_oid. simpl.
    rewrite String.eqb_refl. reflexivity.
  - intros id t. rewrite !get_task_by_id_find. simpl.
    destruct (ObjectId id) as [o|]; [|discriminate].
    rewrite find_snoc. intros ->. reflexivity.
  - reflexivity.
Qed.

Lemma create_task_then_get_witness :
  exists d',
    create_task (mk_db [] []) example_task example_tid = Some (d', example_tid)
    /\ get_task_by_id d' example_tid = Some (stored_task example_tid example_task).
Proof.
  destruct (create_task_then_get (mk_db [] []) example_task example_tid eq_refl)
    as (d' & H1 & H2 & _).
  - intros [].
  - exists d'. auto.
Defined.

End Tasks.

(* ===================================================================== *)
(** * The commands *)
(* ===================================================================== *)

Section Commands.

Import TaskManager.

(** X12. A command changes nothing for a user who does not own the task:
    when the task named by the id is not the author's, [complete_task],
    [delete_task] and [set_priority] return the store as it was. *)
Theorem commands_change_only_own_tasks (author : Z) (id : string) (d : db) :
  (forall task, get_task_by_id d id = Some task -> task_user_id task <> author) ->
  fst (TaskCommands.complete_task author id d) = d
  /\ fst (TaskCommands.delete_task author id d) = d
  /\ (forall priority, fst (TaskCommands.set_priority author id priority d) = d).
Proof.
  intros H.
  unfold TaskCommands.complete_task, TaskCommands.delete_task,
    TaskCommands.set_priority.
  destruct (ValidationHelper.validate_task_id (Some id)); simpl;
    [|repeat split; reflexivity].
  destruct (get_task_by_id d id) as [task|] eqn:G.
  - specialize (H task eq_refl).
    destruct (Z.eqb_spec (task_user_id task) author) as [E|_]; [contradiction|].
    simpl. repeat split. intros priority.
    destruct (ValidationHelper.validate_priority priority); reflexivity.
  - repeat split. intros priority.
    destruct (ValidationHelper.validate_priority priority); reflexivity.
Qed.

Lemma commands_change_only_own_tasks_witness :
  fst (TaskCommands.delete_task 7 example_tid
         (ReminderJobHandler.store example_state))
  = ReminderJobHandler.store example_state.
Proof.
  apply (commands_change_only_own_tasks 7 example_tid
           (ReminderJobHandler.store example_state)).
  intros task H. vm_compute in H. injection H as <-. simpl. lia.
Defined.

Lemma validate_priority_names (p : string) :
  ValidationHelper.validate_priority p = true ->
  In (PyStr.lower p) ["low"; "medium"; "high"].
Proof.
  unfold ValidationHelper.validate_priority. intros H.
  apply existsb_exists in H. destruct H as (x & Hx & E).
  apply String.eqb_eq in E. rewrite E. exact Hx.
Qed.

(** X13. [set_priority] by the owner with a priority that validates stores
    the priority in lower case, one of "low", "medium" and "high",
    and touches no reminder; it answers with the failure message exactly
    when the task already had that priority, as the store then reports no
    modification. *)
Theorem set_priority_stores_lower_case (author : Z) (id priority : string)
    (d : db) (task : Task) :
  ValidationHelper.validate_task_id (Some id) = true ->
  ValidationHelper.validate_priority priority = true ->
  get_task_by_id d id = Some task ->
  task_user_id task = author ->
  let out := TaskCommands.set_priority author id priority d in
  get_task_by_id (fst out) id
  = Some (apply_update task (SetPriority (PyStr.lower priority)))
  /\ In (PyStr.lower priority) ["low"; "medium"; "high"]
  /\ (snd out = TaskCommands.UpdateFailed
      <-> TaskManager.priority task = PyStr.lower priority)
  /\ reminders_collection (fst out) = reminders_collection d.
Proof.
  intros Hv Hp HG Ho out.
  assert (HO : exists o, ObjectId id = Some o).
  { rewrite get_task_by_id_find in HG. destruct (ObjectId id) as [o|];
      [exists o; reflexivity|discriminate]. }
  destruct HO as [o HO].
  destruct (update_task_then_get d id o task
              [SetPriority (PyStr.lower priority)] HO HG) as (U1 & U2 & _ & U4).
  change (apply_updates task [SetPriority (PyStr.lower priority)])
    with (apply_update task (SetPriority (PyStr.lower priority))) in U1, U2.
  assert (E : apply_update task (SetPriority (PyStr.lower priority)) = task
              <-> TaskManager.priority task = PyStr.lower priority).
  { destruct task; simpl. split; intros H; [injection H; auto|subst; reflexivity]. }
  unfold out, TaskCommands.set_priority. rewrite Hv, Hp, HG. cbn [negb].
  rewrite Ho, Z.eqb_refl. cbn [negb].
  destruct (update_task d id [SetPriority (PyStr.lower priority)])
    as [d' success] eqn:EU. cbn [fst snd] in U1, U2, U4.
  destruct success.
  - rewrite U1. cbn [fst snd]. split; [exact U1|].
    split; [apply validate_priority_names; exact Hp|]. split; [|exact U4].
    split; [discriminate|]. intros X. exfalso.
    apply (proj1 U2 eq_refl). apply E. exact X.
  - cbn [fst snd]. split; [exact U1|].
    split; [apply validate_priority_names; exact Hp|]. split; [|exact U4].
    split; [|reflexivity]. intros _.
    destruct (String.eqb_spec (TaskManager.priority task) (PyStr.lower priority))
      as [X|X]; [exact X|].
    exfalso. assert (F : false = true); [|discriminate F].
    apply U2. intros Y. apply X. apply E. exact Y.
Qed.

Lemma set_priority_stores_lower_case_witness :
  get_task_by_id
    (fst (TaskCommands.set_priority 42 example_tid "HIGH"
            (ReminderJobHandler.store example_state))) example_tid
  = Some (apply_update example_task (SetPriority "high")).
Proof.
  exact (proj1 (set_priority_stores_lower_case 42 example_tid "HIGH"
                  (ReminderJobHandler.store example_state) example_task
                  eq_refl eq_refl eq_refl eq_refl)).
Defined.

(** X14. [add_task] stores at most one task and touches no reminder; the
    stored task belongs to the author, is pending with medium priority and
    no due date, and carries the sanitized texts: a title of 1 to 100
    characters and a description of at most 500.  A title that sanitizes
    to nothing is refused and nothing is stored. *)
Theorem add_task_stores_sanitized (author : Z) (title description : string)
    (utcnow : datetime.t) (inserted_id : string) (d : db) :
  let out := TaskCommands.add_task author title description utcnow inserted_id d in
  reminders_collection (fst out) = reminders_collection d
  /\ (tasks_collection (fst out) = tasks_collection d
      \/ exists t,
           tasks_collection (fst out) = (tasks_collection d ++ [t])%list
           /\ task_oid t = inserted_id
           /\ task_user_id t = author
           /\ TaskManager.title t = ValidationHelper.sanitize_input title 100
           /\ TaskManager.description t
              = ValidationHelper.sanitize_input description 500
           /\ (1 <= String.length (TaskManager.title t) <= 100)%nat
           /\ (String.length (TaskManager.description t) <= 500)%nat
           /\ completed t = false /\ TaskManager.priority t = "medium"
           /\ due_date t = None)
  /\ (ValidationHelper.sanitize_input title 100 = EmptyString ->
      out = (d, TaskCommands.TitleEmpty)).
Proof.
  intros out. unfold out, TaskCommands.add_task.
  pose proof (sanitize_input_bounded title 100 ltac:(lia)) as [B1 _].
  pose proof (sanitize_input_bounded description 500 ltac:(lia)) as [B2 _].
  destruct (ValidationHelper.sanitize_input title 100) as [|c r] eqn:St.
  - simpl. split; [reflexivity|]. split; [left; reflexivity|reflexivity].
  - unfold create_task.
    destruct (existsb _ (tasks_collection d)).
    + simpl. split; [reflexivity|]. split; [left; reflexivity|discriminate].
    + assert (X : forall rep : TaskCommands.reply,
                reminders_collection
                  (mk_db (tasks_collection d ++
                          [stored_task inserted_id
                             (mk_Task EmptyString author (String c r)
                                (ValidationHelper.sanitize_input description 500)
                                None "medium" false utcnow)])%list
                     (reminders_collection d)) = reminders_collection d)
        by reflexivity.
      destruct inserted_id as [|i0 i1]; simpl;
        (split; [reflexivity|]); (split; [|discriminate]); right;
        eexists; (split; [reflexivity|]); simpl;
        repeat split; try reflexivity; simpl in B1; lia.
Qed.

End Commands.

(* ===================================================================== *)
(** * Reminders from creation to delivery *)
(* ===================================================================== *)

Section RunStore.

Import TaskManager ReminderJobHandler.

Variable bot : Discord.Bot.
Variable Q : db -> Prop.
Hypothesis Q_mark : forall d x, Q d -> Q (fst (mark_reminder_sent d x)).

Lemma step_store_keeps (w : world) (t : tick) :
  Q (store (handler w)) -> Q (store (handler (fst (step bot w t)))).
Proof.
  intros H. destruct t as [now|now id]; simpl.
  - unfold _process_pending_reminders.
    pose proof (send_all_keeps bot Q Q_mark
                  (get_pending_reminders (store (handler w)) now) (handler w) H)
      as [H1 _].
    destruct (send_all bot _ (handler w)) as [s e]. exact H1.
  - destruct (ReminderScheduler.get_job id (scheduler w)) as [j|]; [|exact H].
    destruct (ReminderScheduler.run_date j <=? now); [|exact H].
    destruct (reminder_callback w); [|exact H].
    pose proof (callback_keeps bot Q Q_mark
                  (ReminderScheduler.arg_reminder_id j)
                  (ReminderScheduler.arg_user_id j)
                  (ReminderScheduler.arg_task_id j)
                  (ReminderScheduler.arg_message j) (handler w) H) as H1.
    destruct (handle_reminder_callback bot _ _ _ _ (handler w)) as [s e].
    exact H1.
Qed.

Lemma run_store_keeps (ts : list tick) (w : world) :
  Q (store (handler w)) -> Q (store (handler (fst (run bot w ts)))).
Proof.
  revert w. induction ts as [|t rest IH]; intros w H; simpl; [exact H|].
  pose proof (step_store_keeps w t H) as H1.
  destruct (step bot w t) as [w1 e1]. simpl in H1.
  pose proof (IH w1 H1) as H2.
  destruct (run bot w1 rest) as [w2 e2]. exact H2.
Qed.

End RunStore.

Section Lifecycle.

Import TaskManager ReminderJobHandler.

Lemma mark_keeps_tasks (d : db) (x : string) :
  tasks_collection (fst (mark_reminder_sent d x)) = tasks_collection d.
Proof.
  unfold mark_reminder_sent. destruct (ObjectId x); [|reflexivity].
  destruct (update_one_sent _ _). reflexivity.
Qed.

Lemma update_one_sent_task_ids (o : string) (rs : list Reminder) (r : Reminder) :
  In r (fst (update_one_sent o rs)) ->
  exists r0, In r0 rs /\ task_id r = task_id r0.
Proof.
  induction rs as [|x rest IH]; simpl; [intros []|].
  destruct (String.eqb o (_id x)); simpl.
  - intros [<-|H]; [exists x; split; [left; reflexivity|reflexivity]|].
    exists r. split; [right; exact H|reflexivity].
  - destruct (update_one_sent o rest) as [rest' n]. simpl in *.
    intros [<-|H]; [exists x; split; [left; reflexivity|reflexivity]|].
    destruct (IH H) as (r0 & H0 & E). exists r0. split; [right; exact H0|exact E].
Qed.

(** X15. Once [TaskManager.delete_task] has deleted a task, none of its
    reminders is ever sent: however the sweep and the timers run
    afterwards, the sweep finds no reminder of the task, and a timer that
    fires for one (the jobs stay in the scheduler) finds no task and
    returns without fetching the user, sending or touching the store. *)
Theorem deleted_task_is_never_reminded (bot : Discord.Bot) (d : db)
    (id : string) (w : world) (ts : list tick) :
  unique_task_ids d ->
  ObjectId id <> None ->
  store (handler w) = fst (TaskManager.delete_task d id) ->
  let w' := fst (run bot w ts) in
  (forall rid uid msg,
      handle_reminder_callback bot rid uid id msg (handler w')
      = (handler w', [EvDeliver rid]))
  /\ (forall now r,
        In r (get_pending_reminders (store (handler w')) now) -> task_id r <> id).
Proof.
  intros U HO Hs w'.
  destruct (ObjectId id) as [o|] eqn:EO; [|contradiction].
  destruct (delete_task_cascades d id) as [_ H]. specialize (H o EO).
  destruct H as (_ & Hg & _ & Hr).
  assert (K : get_task_by_id (store (handler w')) id = None
              /\ forall r, In r (reminders_collection (store (handler w'))) ->
                           task_id r <> id).
  { unfold w'.
    apply (run_store_keeps bot
             (fun d0 => get_task_by_id d0 id = None
                        /\ forall r, In r (reminders_collection d0) ->
                                     task_id r <> id)).
    - intros d0 x [H1 H2]. split.
      + rewrite get_task_by_id_find in *. rewrite mark_keeps_tasks. exact H1.
      + intros r Hin. unfold mark_reminder_sent in Hin.
        destruct (ObjectId x) as [ox|]; [|apply H2; exact Hin].
        pose proof (update_one_sent_task_ids ox (reminders_collection d0) r) as T.
        destruct (update_one_sent ox (reminders_collection d0)) as [rs n].
        simpl in *. destruct (T Hin) as (r0 & H0 & E). rewrite E. apply H2. exact H0.
    - rewrite Hs. split; [apply Hg; exact U|].
      intros r Hin. apply Hr in Hin. exact (proj2 Hin). }
  destruct K as [K1 K2]. split.
  - intros rid uid msg. unfold handle_reminder_callback. rewrite K1. reflexivity.
  - intros now r Hin. apply pending_iff in Hin. apply K2. exact (proj1 Hin).
Qed.

Lemma deleted_task_is_never_reminded_witness :
  handle_reminder_callback example_bot example_rid 42 example_tid "m"
    (handler (fst (run example_bot
                     (mk_world [example_job] true
                        (mk_state
                           (fst (TaskManager.delete_task (store example_state)
                                   example_tid)) 0))
                     [Fire (example_due + 1)
                        (ReminderScheduler.job_id_of example_rid)])))
  = (handler (fst (run example_bot
                     (mk_world [example_job] true
                        (mk_state
                           (fst (TaskManager.delete_task (store example_state)
                                   example_tid)) 0))
                     [Fire (example_due + 1)
                        (ReminderScheduler.job_id_of example_rid)])),
     [EvDeliver example_rid]).
Proof.
  assert (U : unique_task_ids (store example_state)).
  { unfold unique_task_ids. simpl. constructor; [intros []|constructor]. }
  assert (O : ObjectId example_tid <> None) by (vm_compute; discriminate).
  exact (proj1 (deleted_task_is_never_reminded example_bot (store example_state)
                  example_tid
                  (mk_world [example_job] true
                     (mk_state
                        (fst (TaskManager.delete_task (store example_state)
                                example_tid)) 0))
                  [Fire (example_due + 1)
                     (ReminderScheduler.job_id_of example_rid)]
                  U O eq_refl) example_rid 42 "m").
Defined.










End Lifecycle.

(* ===================================================================== *)
(** * Relative forms *)
(* ===================================================================== *)

Section RelativeForms.

Import Clock TimeParser.

Lemma first_match_tomorrow (current : datetime.t) (rest : string) :
  first_match (patterns current) ("tomorrow" ++ rest)
  = (r <- after current (1 * datetime.US_DAY) ;; ret (Some r)).
Proof. reflexivity. Qed.

Lemma after_in_range (current us : Z) (clk : clock) (n : nat) :
  datetime.in_range current = true ->
  0 <= us ->
  datetime.in_range (current + us) = true ->
  after current us clk n = (Val (current + us), n).
Proof.
  intros Hc Hu Hr.
  assert (T : datetime.timedelta us = Val us).
  { unfold datetime.timedelta.
    unfold datetime.in_range in Hc, Hr.
    apply andb_true_iff in Hc. destruct Hc as [C1 _]. apply Z.leb_le in C1.
    apply andb_true_iff in Hr. destruct Hr as [_ R2]. apply Z.ltb_lt in R2.
    assert (B : 0 <= us / datetime.US_DAY < datetime.MAXORDINAL).
    { split; [apply Z.div_pos; [exact Hu|reflexivity]|].
      apply Z.div_lt_upper_bound; [reflexivity|]. lia. }
    unfold datetime.MAXORDINAL in B.
    destruct (Z.leb_spec (-999999999) (us / datetime.US_DAY)); [|lia].
    destruct (Z.leb_spec (us / datetime.US_DAY) 999999999); [|lia].
    reflexivity. }
  unfold after, bind, lift. rewrite T. unfold datetime.add. rewrite Hr.
  reflexivity.
Qed.

(** X19. Any text that, in lower case and stripped, starts with "tomorrow"
    parses to the clock reading plus one day, at the same time of day: what
    follows the word is not looked at, so the time in "tomorrow at 3:30pm"
    is ignored, the pattern for "tomorrow at H:MM" being tried after the
    pattern "tomorrow". *)
Theorem tomorrow_ignores_what_follows (text rest : string) (clk : clock)
    (n : nat) :
  PyStr.strip (PyStr.lower text) = "tomorrow" ++ rest ->
  datetime.in_range (clk n) = true ->
  datetime.in_range (clk n + 1 * datetime.US_DAY) = true ->
  parse_time text clk n = (Val (Some (clk n + 1 * datetime.US_DAY)), S n).
Proof.
  intros Ht Hc Hr. unfold parse_time, parse_relative_time. rewrite Ht.
  unfold bind at 1 2. unfold now at 1.
  rewrite first_match_tomorrow. unfold bind at 1.
  assert (Hp : 0 <= 1 * datetime.US_DAY) by (vm_compute; discriminate).
  rewrite (after_in_range _ _ _ _ Hc Hp Hr).
  reflexivity.
Qed.

Lemma tomorrow_ignores_what_follows_witness :
  parse_time "Tomorrow at 3:30pm" (frozen example_due) 0%nat
  = (Val (Some (example_due + 1 * datetime.US_DAY)), 1%nat).
Proof.
  apply (tomorrow_ignores_what_follows "Tomorrow at 3:30pm" " at 3:30pm"
           (frozen example_due) 0); reflexivity.
Defined.

End RelativeForms.

(* ===================================================================== *)
(** * Validated ids and the store *)
(* ===================================================================== *)

Section ValidatedIds.

Import ValidationHelper TaskManager.

Lemma validate_task_id_shape (s : string) :
  validate_task_id (Some s) = true ->
  exists h, String.length h = 24%nat /\ all_chars hex_lower h = true
            /\ (s = h \/ s = h ++ EmbedHelper.newline).
Proof.
  intros H.
  assert (E : validate_task_id (Some s)
              = match strip_class 24 hex_lower s with
                | Some EmptyString => true
                | Some (String c EmptyString) => Ascii.eqb c (PyStr.chr 10)
                | _ => false
                end).
  { unfold validate_task_id, Re.rmatch, task_id_re, Re.seq.
    rewrite rep_cls.
    destruct s as [|c0 s0]; [reflexivity|].
    destruct (strip_class 24 hex_lower (String c0 s0)) as [r|]; [|reflexivity].
    simpl. destruct r as [|c r]; [reflexivity|].
    destruct r; [|reflexivity].
    unfold Re.eol. destruct (Ascii.eqb c (PyStr.chr 10)); reflexivity. }
  rewrite E in H.
  destruct (strip_class 24 hex_lower s) as [r|] eqn:St; [|discriminate].
  apply strip_class_spec in St. destruct St as (h & Hl & Ha & ->).
  exists h. split; [exact Hl|]. split; [exact Ha|].
  destruct r as [|c r]; [left; apply append_empty_r|].
  destruct r; [|discriminate]. apply Ascii.eqb_eq in H. subst c. right. reflexivity.
Qed.

Lemma hex_lower_char (c : ascii) :
  hex_lower c = true -> is_hex c = true /\ PyStr.lower_char c = c.
Proof.
  destruct c as [[] [] [] [] [] [] [] []]; vm_compute; intros H;
    try discriminate H; split; reflexivity.
Qed.

Lemma hex_lower_string (h : string) :
  all_chars hex_lower h = true ->
  all_chars is_hex h = true /\ PyStr.lower h = h.
Proof.
  induction h as [|c h IH]; simpl; [auto|].
  intros H. apply andb_true_iff in H. destruct H as [Hc Hh].
  destruct (hex_lower_char c Hc) as [H1 H2]. destruct (IH Hh) as [H3 H4].
  rewrite H1, H2, H3, H4. auto.
Qed.

(** X20. A task id that passes [validate_task_id] is either its own object
    id, so that the store is asked for exactly the id that was typed, or
    (the 24 digits followed by a newline) is refused by [ObjectId]: then
    the task is reported as not found whatever the store holds, and
    updating, deleting and marking change nothing. *)
Theorem validated_id_is_canonical_or_unknown (s : string) :
  validate_task_id (Some s) = true ->
  ObjectId s = Some s
  \/ (ObjectId s = None
      /\ forall d : db,
           get_task_by_id d s = None
           /\ (forall updates, update_task d s updates = (d, false))
           /\ delete_task d s = (d, false)
           /\ mark_reminder_sent d s = (d, false)).
Proof.
  intros H. destruct (validate_task_id_shape s H) as (h & Hl & Ha & [->| ->]).
  - left. unfold ObjectId. destruct (hex_lower_string h Ha) as [H1 H2].
    rewrite Hl, H1, H2. reflexivity.
  - right.
    assert (E : ObjectId (h ++ EmbedHelper.newline) = None).
    { unfold ObjectId. rewrite length_append, Hl. reflexivity. }
    split; [exact E|]. intros d.
    unfold get_task_by_id, update_task, delete_task, mark_reminder_sent.
    rewrite E. auto.
Qed.

Lemma validated_id_is_canonical_or_unknown_witness :
  ObjectId example_tid = Some example_tid
  \/ (ObjectId example_tid = None
      /\ forall d : db,
           get_task_by_id d example_tid = None
           /\ (forall updates, update_task d example_tid updates = (d, false))
           /\ delete_task d example_tid = (d, false)
           /\ mark_reminder_sent d example_tid = (d, false)).
Proof.
  apply (validated_id_is_canonical_or_unknown example_tid). reflexivity.
Defined.

End ValidatedIds.

(* ===================================================================== *)
(** * "in N minutes", "in N hours", "in N days" *)
(* ===================================================================== *)

Section RegexFacts.

Lemma seq_head (a b : Re.rx) (s : string) (g1 g2 : Re.groups) (r1 r2 : string)
    (tl1 tl2 : list (Re.groups * string)) :
  a s = (g1, r1) :: tl1 -> b r1 = (g2, r2) :: tl2 ->
  exists tl3, Re.seq a b s = ((g1 ++ g2)%list, r2) :: tl3.
Proof.
  intros Ha Hb. unfold Re.seq. rewrite Ha. simpl. rewrite Hb. simpl.
  eexists. reflexivity.
Qed.

Lemma seq_none (a b : Re.rx) (s : string) :
  (forall x, In x (a s) -> b (snd x) = []) -> Re.seq a b s = [].
Proof.
  unfold Re.seq. induction (a s) as [|[g r] l IH]; intros H; simpl; [reflexivity|].
  pose proof (H (g, r) (or_introl eq_refl)) as E. simpl in E. rewrite E.
  simpl. apply IH.
  intros x Hx. apply H. right. exact Hx.
Qed.

Lemma lit_prefix (u rest : string) : Re.lit u (u ++ rest) = [([], rest)].
Proof.
  induction u as [|c u IH]; simpl; [reflexivity|].
  unfold Re.seq, Re.chr, Re.cls. rewrite Ascii.eqb_refl. simpl.
  rewrite IH. reflexivity.
Qed.

Lemma opt_chr_head (c : ascii) (rest : string) :
  exists r2 tl, Re.opt (Re.chr c) rest = ([], r2) :: tl.
Proof.
  unfold Re.opt, Re.alt, Re.chr, Re.cls, Re.eps.
  destruct rest as [|d rest]; simpl; [eexists; eexists; reflexivity|].
  destruct (Ascii.eqb c d); simpl; eexists; eexists; reflexivity.
Qed.

Lemma plus_outside (p : ascii -> bool) (r : string) :
  starts_outside p r -> Re.plus p r = [].
Proof.
  destruct r as [|c r]; simpl; [reflexivity|]. intros ->. reflexivity.
Qed.

Lemma plus_head (p : ascii -> bool) (ds r : string) :
  TaskManager.all_chars p ds = true -> ds <> EmptyString ->
  starts_outside p r ->
  exists tl, Re.plus p (ds ++ r) = ([], r) :: tl.
Proof.
  intros Ha Hn Hr. induction ds as [|c ds IH]; [contradiction|].
  simpl in *. apply andb_true_iff in Ha. destruct Ha as [Hc Hd]. rewrite Hc.
  destruct ds as [|d ds].
  - simpl. rewrite (plus_outside p r Hr). eexists. reflexivity.
  - destruct (IH Hd ltac:(discriminate)) as [tl E]. rewrite E.
    eexists. reflexivity.
Qed.

Lemma plus_rests (p : ascii -> bool) (ds r : string) (x : Re.groups * string) :
  TaskManager.all_chars p ds = true -> starts_outside p r ->
  In x (Re.plus p (ds ++ r)) ->
  snd x = r \/ exists c s', snd x = String c s' /\ p c = true.
Proof.
  intros Ha Hr. induction ds as [|c ds IH].
  - simpl. rewrite (plus_outside p r Hr). intros [].
  - simpl in *. apply andb_true_iff in Ha. destruct Ha as [Hc Hd]. rewrite Hc.
    intros Hx. apply in_app_iff in Hx. destruct Hx as [Hx|[<-|[]]].
    + apply IH; assumption.
    + simpl. destruct ds as [|d ds]; [left; reflexivity|].
      right. exists d, (ds ++ r). split; [reflexivity|].
      simpl in Hd. apply andb_true_iff in Hd. exact (proj1 Hd).
Qed.

Lemma substring_prefix (ds r : string) :
  substring 0 (String.length ds) (ds ++ r) = ds.
Proof.
  induction ds as [|c ds IH]; simpl.
  - destruct r; reflexivity.
  - rewrite IH. reflexivity.
Qed.

Lemma take_consumed_append (ds r : string) : Re.take_consumed (ds ++ r) r = ds.
Proof.
  unfold Re.take_consumed. rewrite length_append.
  replace (String.length ds + String.length r - String.length r)%nat
    with (String.length ds) by lia.
  apply substring_prefix.
Qed.

Lemma group_plus_head (p : ascii -> bool) (ds r : string) :
  TaskManager.all_chars p ds = true -> ds <> EmptyString ->
  starts_outside p r ->
  exists tl, Re.group (Re.plus p) (ds ++ r) = ([Some ds], r) :: tl.
Proof.
  intros Ha Hn Hr. destruct (plus_head p ds r Ha Hn Hr) as [tl E].
  unfold Re.group. rewrite E. simpl. rewrite take_consumed_append.
  eexists. reflexivity.
Qed.

Lemma group_plus_rests (p : ascii -> bool) (ds r : string)
    (x : Re.groups * string) :
  TaskManager.all_chars p ds = true -> starts_outside p r ->
  In x (Re.group (Re.plus p) (ds ++ r)) ->
  snd x = r \/ exists c s', snd x = String c s' /\ p c = true.
Proof.
  intros Ha Hr Hx. unfold Re.group in Hx. apply in_map_iff in Hx.
  destruct Hx as ([g r'] & <- & Hin). simpl.
  exact (plus_rests p ds r (g, r') Ha Hr Hin).
Qed.

End RegexFacts.

Section InUnits.

Import Clock TimeParser.

Local Abbreviation in_pattern u :=
  (Re.seq (Re.lit "in ")
     (Re.seq (Re.group (Re.plus PyStr.is_digit))
        (Re.seq (Re.lit u) (Re.opt (Re.chr "s"))))).

Lemma in_pattern_matches (u ds rest : string) :
  TaskManager.all_chars PyStr.is_digit ds = true -> ds <> EmptyString ->
  starts_outside PyStr.is_digit (u ++ rest) ->
  Re.rmatch (in_pattern u) ("in " ++ ds ++ u ++ rest) = Some [Some ds].
Proof.
  intros Ha Hn Hu.
  destruct (group_plus_head PyStr.is_digit ds (u ++ rest) Ha Hn Hu) as [tl1 E1].
  destruct (opt_chr_head "s" rest) as (r2 & tl2 & E2).
  destruct (seq_head (Re.lit u) (Re.opt (Re.chr "s")) (u ++ rest) [] [] rest r2
              [] tl2 (lit_prefix u rest) E2) as [tl3 E3].
  destruct (seq_head (Re.group (Re.plus PyStr.is_digit))
              (Re.seq (Re.lit u) (Re.opt (Re.chr "s"))) (ds ++ u ++ rest)
              [Some ds] ([] ++ [])%list (u ++ rest) r2 tl1 tl3 E1 E3) as [tl4 E4].
  destruct (seq_head (Re.lit "in ")
              (Re.seq (Re.group (Re.plus PyStr.is_digit))
                 (Re.seq (Re.lit u) (Re.opt (Re.chr "s"))))
              ("in " ++ ds ++ u ++ rest) [] ([Some ds] ++ ([] ++ []))%list
              (ds ++ u ++ rest) r2 [] tl4
              (lit_prefix "in " (ds ++ u ++ rest)) E4) as [tl5 E5].
  unfold Re.rmatch. rewrite E5. reflexivity.
Qed.

Lemma in_pattern_fails (u' u ds rest : string) :
  TaskManager.all_chars PyStr.is_digit ds = true ->
  starts_outside PyStr.is_digit (u ++ rest) ->
  (forall c s', PyStr.is_digit c = true -> Re.lit u' (String c s') = []) ->
  Re.lit u' (u ++ rest) = [] ->
  Re.rmatch (in_pattern u') ("in " ++ ds ++ u ++ rest) = None.
Proof.
  intros Ha Hu Hd Hf.
  assert (X : Re.seq (Re.group (Re.plus PyStr.is_digit))
                (Re.seq (Re.lit u') (Re.opt (Re.chr "s"))) (ds ++ u ++ rest) = []).
  { apply seq_none. intros x Hx.
    assert (L : Re.lit u' (snd x) = []).
    { destruct (group_plus_rests PyStr.is_digit ds (u ++ rest) x Ha Hu Hx)
        as [->|(c & s' & -> & Hc)]; [exact Hf|exact (Hd c s' Hc)]. }
    unfold Re.seq. rewrite L. reflexivity. }
  unfold Re.rmatch.
  unfold Re.seq at 1. rewrite (lit_prefix "in " (ds ++ u ++ rest)).
  simpl flat_map. rewrite X. reflexivity.
Qed.

Lemma digit_not_blank (c : ascii) :
  PyStr.is_digit c = true -> Ascii.eqb " " c = false /\ PyStr.is_space c = false.
Proof.
  destruct c as [[] [] [] [] [] [] [] []]; vm_compute; intros H;
    try discriminate H; split; reflexivity.
Qed.

Lemma blank_word_fails_on_digit (w : string) (c : ascii) (s' : string) :
  PyStr.is_digit c = true -> Re.lit (String " " w) (String c s') = [].
Proof.
  intros Hc. simpl. unfold Re.seq, Re.chr, Re.cls.
  rewrite (proj1 (digit_not_blank c Hc)). reflexivity.
Qed.

Lemma rev_append (a b : string) : PyStr.rev (a ++ b) = PyStr.rev b ++ PyStr.rev a.
Proof.
  induction a as [|c a IH]; simpl.
  - rewrite append_empty_r. reflexivity.
  - rewrite !rev_cons, IH, append_assoc. reflexivity.
Qed.

Lemma rev_involutive (s : string) : PyStr.rev (PyStr.rev s) = s.
Proof.
  induction s as [|c s IH]; [reflexivity|].
  rewrite rev_cons, rev_append, IH. reflexivity.
Qed.

Lemma lstrip_no_space (s : string) :
  TaskManager.all_chars not_space s = true -> PyStr.lstrip s = s.
Proof.
  destruct s as [|c s]; simpl; [reflexivity|]. intros H.
  apply andb_true_iff in H. destruct H as [Hc _].
  unfold not_space in Hc. apply negb_true_iff in Hc. rewrite Hc. reflexivity.
Qed.

Lemma strip_no_space (s : string) :
  TaskManager.all_chars not_space s = true -> PyStr.strip s = s.
Proof.
  intros H. unfold PyStr.strip, PyStr.rstrip.
  rewrite (lstrip_no_space s H).
  rewrite lstrip_no_space by (rewrite all_chars_rev; exact H).
  apply rev_involutive.
Qed.

Lemma digits_no_space (ds : string) :
  TaskManager.all_chars PyStr.is_digit ds = true ->
  TaskManager.all_chars not_space ds = true.
Proof.
  induction ds as [|c ds IH]; simpl; [reflexivity|]. intros H.
  apply andb_true_iff in H. destruct H as [Hc Hd].
  unfold not_space at 1. rewrite (proj2 (digit_not_blank c Hc)). simpl.
  apply IH. exact Hd.
Qed.

Lemma int_acc_nonneg (ds : string) (acc : Z) :
  TaskManager.all_chars PyStr.is_digit ds = true -> 0 <= acc ->
  0 <= PyStr.int_acc ds acc.
Proof.
  revert acc. induction ds as [|c ds IH]; intros acc H Ha;
    cbn [PyStr.int_acc]; [exact Ha|].
  cbn [TaskManager.all_chars] in H. apply andb_true_iff in H.
  destruct H as [Hc Hd].
  apply IH; [exact Hd|]. unfold PyStr.is_digit in Hc. cbv zeta in Hc.
  apply andb_true_iff in Hc. destruct Hc as [H1 _]. apply Z.leb_le in H1. lia.
Qed.

Lemma int_digits_nonneg (ds : string) :
  TaskManager.all_chars PyStr.is_digit ds = true -> 0 <= PyStr.int ds.
Proof.
  intros H. unfold PyStr.int. rewrite (strip_no_space ds (digits_no_space ds H)).
  apply int_acc_nonneg; [exact H|lia].
Qed.

Lemma first_match_in_units (current : datetime.t) (u : string) (us : Z)
    (ds rest : string) :
  In (u, us) relative_units ->
  TaskManager.all_chars PyStr.is_digit ds = true -> ds <> EmptyString ->
  first_match (patterns current) ("in " ++ ds ++ u ++ rest)
  = (r <- after current (PyStr.int ds * us) ;; ret (Some r)).
Proof.
  intros Hin Ha Hn. unfold relative_units in Hin.
  destruct Hin as [E|[E|[E|[]]]]; injection E as <- <-.
  - unfold patterns. cbn [first_match].
    rewrite (in_pattern_matches " minute" ds rest Ha Hn eq_refl). reflexivity.
  - unfold patterns. cbn [first_match].
    rewrite (in_pattern_fails " minute" " hour" ds rest Ha eq_refl
               (blank_word_fails_on_digit "minute") eq_refl).
    rewrite (in_pattern_matches " hour" ds rest Ha Hn eq_refl). reflexivity.
  - unfold patterns. cbn [first_match].
    rewrite (in_pattern_fails " minute" " day" ds rest Ha eq_refl
               (blank_word_fails_on_digit "minute") eq_refl).
    rewrite (in_pattern_fails " hour" " day" ds rest Ha eq_refl
               (blank_word_fails_on_digit "hour") eq_refl).
    rewrite (in_pattern_matches " day" ds rest Ha Hn eq_refl). reflexivity.
Qed.

(** X21. A text that, in lower case and stripped, reads "in", a number [N]
    written in digits (at most 4300 of them, the most that [int] reads),
    and "minute", "hour" or "day" (whatever follows, the plural "s" or
    anything else) parses to the clock reading plus [N] of that unit, for
    every [N] that keeps the result within the range of [datetime], zero
    included. *)
Theorem in_n_units_adds_to_now (text u : string) (us : Z) (ds rest : string)
    (clk : clock) (n : nat) :
  In (u, us) relative_units ->
  TaskManager.all_chars PyStr.is_digit ds = true -> ds <> EmptyString ->
  (String.length ds <= 4300)%nat ->
  PyStr.strip (PyStr.lower text) = "in " ++ ds ++ u ++ rest ->
  datetime.in_range (clk n) = true ->
  datetime.in_range (clk n + PyStr.int ds * us) = true ->
  parse_time text clk n = (Val (Some (clk n + PyStr.int ds * us)), S n).
Proof.
  intros Hin Ha Hn _ Ht Hc Hr. unfold parse_time, parse_relative_time. rewrite Ht.
  unfold bind at 1 2. unfold now at 1.
  rewrite (first_match_in_units (clk n) u us ds rest Hin Ha Hn).
  unfold bind at 1.
  assert (Hp : 0 <= PyStr.int ds * us).
  { apply Z.mul_nonneg_nonneg; [apply int_digits_nonneg; exact Ha|].
    unfold relative_units in Hin.
    destruct Hin as [E|[E|[E|[]]]]; injection E as _ <-; vm_compute; discriminate. }
  rewrite (after_in_range _ _ _ _ Hc Hp Hr). reflexivity.
Qed.

Lemma in_n_units_adds_to_now_witness :
  parse_time " In 90 Minutes " (frozen example_due) 0%nat
  = (Val (Some (example_due + PyStr.int "90" * datetime.US_MINUTE)), 1%nat).
Proof.
  apply (in_n_units_adds_to_now " In 90 Minutes " " minute" datetime.US_MINUTE
           "90" "s" (frozen example_due) 0).
  - left. reflexivity.
  - reflexivity.
  - discriminate.
  - simpl. lia.
  - reflexivity.
  - reflexivity.
  - reflexivity.
Defined.

End InUnits.

(* ===================================================================== *)
(** * "today at H:MM" *)
(* ===================================================================== *)

Section SpecificTime.

Import Clock TimeParser.

Lemma specific_hour (hour : Z) (ampm : option string) :
  ampm = None \/ ampm = Some "am" \/ ampm = Some "pm" ->
  match ampm with
  | Some a =>
      if String.eqb a EmptyString then hour
      else if String.eqb (PyStr.lower a) "pm" && negb (hour =? 12) then hour + 12
      else if String.eqb (PyStr.lower a) "am" && (hour =? 12) then 0
      else hour
  | None => hour
  end = hour24 hour ampm.
Proof.
  intros [->|[->| ->]]; simpl; [reflexivity| |];
    destruct (Z.eqb_spec hour 12) as [->|_]; reflexivity.
Qed.

Lemma replaced_fields (x H M : Z) :
  0 <= H <= 23 -> 0 <= M <= 59 ->
  let r := x / datetime.US_DAY * datetime.US_DAY + H * datetime.US_HOUR
           + M * datetime.US_MINUTE in
  datetime.toordinal r = datetime.toordinal x
  /\ datetime.hour r = H /\ datetime.minute r = M
  /\ datetime.second r = 0 /\ datetime.microsecond r = 0.
Proof.
  intros HH HM r. unfold r, datetime.toordinal, datetime.hour, datetime.minute,
    datetime.second, datetime.microsecond, datetime.US_DAY, datetime.US_HOUR,
    datetime.US_MINUTE, datetime.US_SECOND.
  repeat split; Z.div_mod_to_equations; lia.
Qed.

(** X22. [_get_specific_time] for "today", with an hour and a minute that
    name a time of the day (the hour read by the 12-hour convention when
    "am" or "pm" is given), returns the date of the clock reading at that
    hour and minute, seconds and microseconds zero.  When they do not (an
    hour above 23 once "pm" has added 12, as in "13:00pm", or a minute
    above 59) it raises [ValueError]: the parser then raises instead of
    reporting a failure. *)
Theorem get_specific_time_today (hour minute : Z) (ampm : option string)
    (clk : clock) (n : nat) :
  ampm = None \/ ampm = Some "am" \/ ampm = Some "pm" ->
  0 <= hour -> 0 <= minute ->
  (hour24 hour ampm <= 23 /\ minute <= 59 ->
   exists r,
     _get_specific_time "today" hour minute ampm clk n = (Val r, S n)
     /\ datetime.toordinal r = datetime.toordinal (clk n)
     /\ datetime.hour r = hour24 hour ampm
     /\ datetime.minute r = minute
     /\ datetime.second r = 0 /\ datetime.microsecond r = 0)
  /\ (23 < hour24 hour ampm \/ 59 < minute ->
      _get_specific_time "today" hour minute ampm clk n
      = (Raise ValueError, S n)).
Proof.
  intros Ha Hh Hm.
  assert (H0 : 0 <= hour24 hour ampm).
  { destruct Ha as [->|[->| ->]]; simpl; [lia| |];
      destruct (hour =? 12); lia. }
  unfold _get_specific_time, bind, now, lift, ret.
  rewrite (specific_hour hour ampm Ha). unfold datetime.replace_hm.
  split.
  - intros [H1 H2].
    destruct (Z.leb_spec 0 (hour24 hour ampm)); [|lia].
    destruct (Z.leb_spec (hour24 hour ampm) 23); [|lia].
    destruct (Z.leb_spec 0 minute); [|lia].
    destruct (Z.leb_spec minute 59); [|lia].
    cbn [andb]. eexists. split; [reflexivity|].
    apply replaced_fields; lia.
  - intros H1.
    destruct (Z.leb_spec 0 (hour24 hour ampm)); [|lia].
    destruct (Z.leb_spec 0 minute); [|lia].
    destruct (Z.leb_spec (hour24 hour ampm) 23);
      destruct (Z.leb_spec minute 59); cbn [andb]; try reflexivity; lia.
Qed.

Lemma get_specific_time_today_witness :
  _get_specific_time "today" 13 0 (Some "pm") (frozen example_due) 0%nat
  = (Raise ValueError, 1%nat).
Proof.
  apply (get_specific_time_today 13 0 (Some "pm") (frozen example_due) 0).
  - right. right. reflexivity.
  - lia.
  - lia.
  - left. simpl. lia.
Defined.

End SpecificTime.

(* ===================================================================== *)
(** * Priorities *)
(* ===================================================================== *)

Section Priorities.

(** X23. [validate_priority] accepts exactly the priorities that
    [_get_priority_color] gives a colour of their own ("low", "medium",
    "high" in any case): a priority is refused exactly when its colour
    would be the grey of an unknown priority. *)
Theorem valid_priority_has_colour (priority : string) :
  ValidationHelper.validate_priority priority = true
  <-> EmbedHelper._get_priority_color priority <> 8421504.
Proof.
  unfold ValidationHelper.validate_priority, EmbedHelper._get_priority_color.
  cbn [existsb].
  destruct (String.eqb (PyStr.lower priority) "low");
    [split; [discriminate|reflexivity]|].
  destruct (String.eqb (PyStr.lower priority) "medium");
    [split; [discriminate|reflexivity]|].
  destruct (String.eqb (PyStr.lower priority) "high");
    [split; [discriminate|reflexivity]|].
  simpl. split; [discriminate|]. intros H. exfalso. apply H. reflexivity.
Qed.

End Priorities.
